(** * xlsx_to_sql: a workbook copied sheet by sheet into an SQLite database

    Shallow embedding of [src/data/xlsx_to_sql.py].  The script is one
    function, [main]: it checks that the workbook is a regular file, reads
    every sheet with pandas, opens the SQLite file, and writes each sheet
    with [DataFrame.to_sql(..., if_exists="replace", index=False)] inside a
    [try ... finally conn.close()].

    Python values are modelled as the script has them: a [str] is a list of
    Unicode code points, the dict returned by [pd.read_excel] is an
    association list in insertion order, the SQLite file is a finite map
    from table names to tables.  The calls into pathlib, pandas and sqlite3
    are modelled by their documented effect on an explicit [World]; where
    they can raise, an [Env] says which of them do in the run at hand. *)

From Stdlib Require Import NArith ZArith List Lia Ascii String.
From stdpp Require Import base option list countable numbers gmap fin_maps.

Set Default Proof Using "Type".
Set Warnings "-clear-no-such-hyp".  (* set_solver clears names that may be gone *)

(** ** Python strings *)

Module PyStr.

(** A [str] is a sequence of code points. *)
Definition codepoint := N.
Definition str := list codepoint.

(** The code points for which [str.isspace] holds; [str.strip] with no
    argument removes exactly these. *)
Definition whitespace : list codepoint :=
  [9; 10; 11; 12; 13; 28; 29; 30; 31; 32; 133; 160; 5760;
   8192; 8193; 8194; 8195; 8196; 8197; 8198; 8199; 8200; 8201; 8202;
   8232; 8233; 8239; 8287; 12288]%N.

Definition isspace (c : codepoint) : bool :=
  existsb (N.eqb c) whitespace.

Fixpoint lstrip (s : str) : str :=
  match s with
  | [] => []
  | c :: s' => if isspace c then lstrip s' else s
  end.

Definition rstrip (s : str) : str := reverse (lstrip (reverse s)).

(** [s.strip()]: the left index moves right over whitespace, then the
    right index moves left. *)
Definition strip (s : str) : str := rstrip (lstrip s).

Fixpoint startswith (p s : str) : bool :=
  match p, s with
  | [], _ => true
  | _ :: _, [] => false
  | a :: p', b :: s' => N.eqb a b && startswith p' s'
  end.

(** [s.replace(old, new)] for a non-empty [old]: occurrences are found
    left to right and do not overlap; [skip] counts the code points of
    the occurrence just replaced that are still to be passed over. *)
Fixpoint replace_from (old new : str) (skip : nat) (s : str) : str :=
  match s with
  | [] => []
  | c :: s' =>
      match skip with
      | S k => replace_from old new k s'
      | O =>
          if startswith old s
          then new ++ replace_from old new (pred (length old)) s'
          else c :: replace_from old new 0 s'
      end
  end.

Definition replace (old new s : str) : str := replace_from old new 0 s.

(** ASCII literals of the script. *)
Definition SPACE : codepoint := 32%N.
Definition UNDERSCORE : codepoint := 95%N.
Definition SLASH : codepoint := 47%N.

(** The [str] of an ASCII literal. *)
Definition lit (s : string) : str := N_of_ascii <$> list_ascii_of_string s.

End PyStr.

Import PyStr.

(** [str(sheet_name)]: the keys of the dict that [pd.read_excel] returns
    for [sheet_name=None] are the sheet names, already of type [str]. *)
Definition str_of (sheet_name : str) : str := sheet_name.

(** Line 28: [table_name = str(sheet_name).strip().replace(" ", "_")]. *)
Definition table_name (sheet_name : str) : str :=
  replace [SPACE] [UNDERSCORE] (strip (str_of sheet_name)).

(** ** Data: cells, frames, tables, files *)

(** A cell value as pandas hands it to SQLite.  The script never looks
    inside a cell. *)
Inductive Cell :=
| Null
| Integer (z : Z)
| Real (mantissa exponent : Z)
| Text (s : str).

Definition Row := list Cell.

(** What [pd.read_excel] yields for one sheet: the column labels taken from
    the header row and the data rows below it, under the default
    [RangeIndex] 0, 1, 2, ... *)
Record DataFrame := {
  df_columns : list str;
  df_rows : list Row
}.

(** The dict of [sheet_name=None]: sheet name to frame, in workbook order. *)
Abbreviation Workbook := (list (str * DataFrame)).

Record Table := {
  columns : list str;
  rows : list Row
}.

Inductive Content :=
| Xlsx (wb : Workbook)              (* a workbook [pd.read_excel] can read *)
| Sqlite (db : gmap str Table)      (* an SQLite database *)
| Bytes.                            (* anything else *)

Inductive Node :=
| Directory
| RegularFile (c : Content).

(** What following a symbolic link gives: the absolute path it leads to in
    the end, or no path when the links form a loop. *)
Inductive Link :=
| LinkTo (target : str)
| LinkLoop.

(** The part of the machine the script can touch.  Paths are kept as the
    script writes them (relative to [cwd]).  [fs] tells what a path names,
    symbolic links followed (a dangling link and a loop name nothing);
    [links] tells which paths are symbolic links and where they lead. *)
Record World := {
  cwd : str;
  links : gmap str Link;
  fs : gmap str Node;
  open_connections : nat;
  stdout : list str
}.

Definition set_fs (f : gmap str Node) (w : World) : World :=
  {| cwd := cwd w; links := links w; fs := f;
     open_connections := open_connections w; stdout := stdout w |}.

Definition set_open_connections (n : nat) (w : World) : World :=
  {| cwd := cwd w; links := links w; fs := fs w; open_connections := n;
     stdout := stdout w |}.

Definition set_stdout (o : list str) (w : World) : World :=
  {| cwd := cwd w; links := links w; fs := fs w;
     open_connections := open_connections w; stdout := o |}.

(** ** Exceptions and the monad of the script *)

Inductive Exn :=
| FileNotFoundError (msg : str)   (* raised by [main] itself, line 15 *)
| ReadExcelError                  (* whatever [pd.read_excel] raised *)
| SqliteError                     (* whatever sqlite3 or [to_sql] raised, of
                                     any class: an sqlite3 error, pandas'
                                     error for a name it rejects, ... *)
| TableExistsError                (* [to_sql] with [if_exists="fail"] *)
| RuntimeError.                   (* [Path.resolve()] on a link loop *)

Inductive Outcome (A : Type) :=
| Returned (a : A)
| Raised (e : Exn).
Arguments Returned {A} a.
Arguments Raised {A} e.

Definition M (A : Type) : Type := World → Outcome A * World.

Definition ret {A} (a : A) : M A := λ w, (Returned a, w).
Definition raise {A} (e : Exn) : M A := λ w, (Raised e, w).
Definition bind {A B} (m : M A) (k : A → M B) : M B :=
  λ w, match m w with
       | (Returned a, w') => k a w'
       | (Raised e, w') => (Raised e, w')
       end.

#[global] Instance M_ret : MRet M := @ret.
#[global] Instance M_bind : MBind M := λ A B k m, bind m k.

(** [try: body finally: fin].  The [finally] block runs on either exit of
    [body]; an exception of its own replaces the pending one. *)
Definition try_finally {A} (body : M A) (fin : M unit) : M A :=
  λ w, let '(r, w1) := body w in
       match fin w1 with
       | (Returned _, w2) => (r, w2)
       | (Raised e, w2) => (Raised e, w2)
       end.

(** [for x in xs: body]. *)
Fixpoint for_each {A} (body : A → M unit) (xs : list A) : M unit :=
  match xs with
  | [] => mret tt
  | x :: xs' => body x ;; for_each body xs'
  end.

Definition print (line : str) : M unit :=
  λ w, (Returned tt, set_stdout (stdout w ++ [line]) w).

(** ** pathlib *)

(** [Path.is_file()]: true only for a regular file; false for a missing
    path and for a directory. *)
Definition is_file (p : str) : M bool :=
  λ w, (Returned match fs w !! p with
                 | Some (RegularFile _) => true
                 | _ => false
                 end, w).

(** [dir / p]: an absolute [p] stays; otherwise one separator stands
    between the two, none is added after a [dir] that ends in one (the
    root). *)
Definition join_path (dir p : str) : str :=
  if startswith [SLASH] p then p
  else match last dir with
       | Some c => if N.eqb c SLASH then dir ++ p else dir ++ [SLASH] ++ p
       | None => [SLASH] ++ p
       end.

(** The absolute path of [p], links followed: where the link leads when [p]
    is a symbolic link, and [p] under the working directory otherwise (the
    script's two names have one component and no dot segments). *)
Definition realpath (w : World) (p : str) : str :=
  match links w !! p with
  | Some (LinkTo target) => target
  | _ => join_path (cwd w) p
  end.

(** [Path.resolve()], not strict: the real path, also of a path that names
    nothing; on a loop of symbolic links, which names nothing, it raises
    [RuntimeError] (Python before 3.13).  A [LinkLoop] at a path that [fs]
    gives a node is not a loop and is not read. *)
Definition resolve (p : str) : M str :=
  λ w, match links w !! p, fs w !! p with
       | Some LinkLoop, None => (Raised RuntimeError, w)
       | _, _ => (Returned (realpath w p), w)
       end.

Fixpoint after_last_slash (acc s : str) : str :=
  match s with
  | [] => acc
  | c :: s' => if N.eqb c SLASH then after_last_slash s' s'
               else after_last_slash acc s'
  end.

(** [Path.name]: the final component. *)
Definition path_name (p : str) : str := after_last_slash p p.

(** ** pandas and sqlite3 *)

(** [pd.read_excel(path, sheet_name=None)]. *)
Definition read_excel (p : str) : M Workbook :=
  λ w, match fs w !! p with
       | Some (RegularFile (Xlsx wb)) => (Returned wb, w)
       | _ => (Raised ReadExcelError, w)
       end.

(** Where a [to_sql] call raised, if it did: before it changed anything,
    at [CREATE TABLE] (an old table of that name is then already dropped),
    or at the [INSERT], which is rolled back and leaves the new table
    empty. *)
Inductive Fault :=
| AtStart
| AtCreate
| AtInsert.

(** What the surroundings do in one run: whether [sqlite3.connect] raises
    (unwritable directory, ...) and where, if anywhere, the write of each
    sheet raises (disk full, name rejected by SQLite, ...). *)
Record Env := {
  connect_raises : bool;
  to_sql_fault : str → option Fault
}.

Record Connection := { database : str }.

(** [sqlite3.connect(path)]: opens the file, creating an empty database
    when there is none. *)
Definition connect (env : Env) (p : str) : M Connection :=
  λ w, if connect_raises env then (Raised SqliteError, w) else
       match fs w !! p with
       | Some Directory => (Raised SqliteError, w)
       | Some (RegularFile _) =>
           (Returned {| database := p |},
            set_open_connections (S (open_connections w)) w)
       | None =>
           (Returned {| database := p |},
            set_open_connections (S (open_connections w))
              (set_fs (<[p := RegularFile (Sqlite ∅)]> (fs w)) w))
       end.

(** [conn.close()]. *)
Definition close (conn : Connection) : M unit :=
  λ w, (Returned tt, set_open_connections (pred (open_connections w)) w).

Inductive IfExists :=
| IfExistsFail
| IfExistsReplace
| IfExistsAppend.

Definition INDEX_LABEL : str := lit "index".

(** The columns and rows [to_sql] sends: with [index=True] the frame's
    index goes first, as a column of its own. *)
Definition frame_columns (index : bool) (df : DataFrame) : list str :=
  if index then INDEX_LABEL :: df_columns df else df_columns df.

Definition frame_rows (index : bool) (df : DataFrame) : list Row :=
  if index then imap (λ i r, Integer (Z.of_nat i) :: r) (df_rows df)
  else df_rows df.

Definition drop_table (name : str) (db : gmap str Table) : gmap str Table :=
  delete name db.

Definition create_table (name : str) (cols : list str) (db : gmap str Table)
  : gmap str Table :=
  <[name := {| columns := cols; rows := [] |}]> db.

Definition insert_rows (name : str) (rs : list Row) (db : gmap str Table)
  : gmap str Table :=
  alter (λ t, {| columns := columns t; rows := rows t ++ rs |}) name db.

(** The statements of one [to_sql] call on the tables of the database: the
    existence check, then by [if_exists] the drop and the [CREATE TABLE],
    then the [INSERT] of all rows. *)
Definition write_frame (fault : option Fault) (df : DataFrame) (name : str)
    (if_exists : IfExists) (index : bool) (db : gmap str Table)
  : Outcome unit * gmap str Table :=
  match fault with
  | Some AtStart => (Raised SqliteError, db)
  | _ =>
      let cols := frame_columns index df in
      let prepared :=
        match db !! name, if_exists with
        | Some _, IfExistsFail => (Raised TableExistsError, db)
        | Some _, IfExistsAppend => (Returned tt, db)
        | Some _, IfExistsReplace =>
            match fault with
            | Some AtCreate => (Raised SqliteError, drop_table name db)
            | _ => (Returned tt, create_table name cols (drop_table name db))
            end
        | None, _ =>
            match fault with
            | Some AtCreate => (Raised SqliteError, db)
            | _ => (Returned tt, create_table name cols db)
            end
        end in
      match prepared with
      | (Raised e, db1) => (Raised e, db1)
      | (Returned _, db1) =>
          match fault with
          | Some AtInsert => (Raised SqliteError, db1)
          | _ => (Returned tt, insert_rows name (frame_rows index df) db1)
          end
      end
  end.

(** [df.to_sql(name, conn, if_exists=..., index=...)].  A file that is not
    an SQLite database makes the first statement raise. *)
Definition to_sql (fault : option Fault) (df : DataFrame) (name : str)
    (conn : Connection) (if_exists : IfExists) (index : bool) : M unit :=
  λ w, match fs w !! database conn with
       | Some (RegularFile (Sqlite db)) =>
           let '(r, db') := write_frame fault df name if_exists index db in
           (r, set_fs (<[database conn := RegularFile (Sqlite db')]> (fs w)) w)
       | _ => (Raised SqliteError, w)
       end.

(** ** The script *)

Definition EXCEL_FILE : str := lit "db.xlsx".
Definition SQLITE_DB : str := lit "data.db".

(** The literal parts of the script's messages, as code points. *)
Module Msg.
(* "لم يتم العثور على ملف الإكسل: " *)
Definition not_found : str :=
  [1604; 1605; 32; 1610; 1578; 1605; 32; 1575; 1604; 1593; 1579; 1608; 1585;
   32; 1593; 1604; 1609; 32; 1605; 1604; 1601; 32; 1575; 1604; 1573; 1603;
   1587; 1604; 58; 32]%N.
(* "جاري قراءة ملف الإكسل: " *)
Definition reading : str :=
  [1580; 1575; 1585; 1610; 32; 1602; 1585; 1575; 1569; 1577; 32; 1605; 1604;
   1601; 32; 1575; 1604; 1573; 1603; 1587; 1604; 58; 32]%N.
(* "- جاري حفظ الشيت '" *)
Definition saving_sheet : str :=
  [45; 32; 1580; 1575; 1585; 1610; 32; 1581; 1601; 1592; 32; 1575; 1604;
   1588; 1610; 1578; 32; 39]%N.
(* "' في جدول SQLite اسمه '" *)
Definition in_table : str :=
  [39; 32; 1601; 1610; 32; 1580; 1583; 1608; 1604; 32; 83; 81; 76; 105; 116;
   101; 32; 1575; 1587; 1605; 1607; 32; 39]%N.
Definition quote : str := [39]%N.
(* "\n✓ تم التحويل بنجاح." *)
Definition converted : str :=
  [10; 10003; 32; 1578; 1605; 32; 1575; 1604; 1578; 1581; 1608; 1610; 1604;
   32; 1576; 1606; 1580; 1575; 1581; 46]%N.
(* "قاعدة البيانات الناتجة: " *)
Definition result_db : str :=
  [1602; 1575; 1593; 1583; 1577; 32; 1575; 1604; 1576; 1610; 1575; 1606;
   1575; 1578; 32; 1575; 1604; 1606; 1575; 1578; 1580; 1577; 58; 32]%N.
End Msg.

(** Lines 26-33, the body of the loop. *)
Definition save_sheet (env : Env) (conn : Connection)
    (item : str * DataFrame) : M unit :=
  let '(sheet_name, df) := item in
  let table := table_name sheet_name in
  print (Msg.saving_sheet ++ sheet_name ++ Msg.in_table ++ table ++ Msg.quote) ;;
  to_sql (to_sql_fault env sheet_name) df table conn IfExistsReplace false.

(** Lines 11-39. *)
Definition main (env : Env) : M unit :=
  let excel_path := EXCEL_FILE in
  found ← is_file excel_path ;
  (if negb found
   then resolved ← resolve excel_path ;
        raise (FileNotFoundError (Msg.not_found ++ resolved))
   else mret tt) ;;
  print (Msg.reading ++ path_name excel_path) ;;
  all_sheets ← read_excel excel_path ;
  conn ← connect env SQLITE_DB ;
  try_finally
    (for_each (save_sheet env conn) all_sheets ;;
     print Msg.converted ;;
     resolved ← resolve SQLITE_DB ;
     print (Msg.result_db ++ resolved))
    (close conn).

(** ** What the statements below observe *)

(** The tables of the database file; a path that holds no SQLite database
    holds no tables. *)
Definition tables (w : World) : gmap str Table :=
  match fs w !! SQLITE_DB with
  | Some (RegularFile (Sqlite db)) => db
  | _ => ∅
  end.

(** The table with exactly the frame's header and data rows. *)
Definition table_of_frame (df : DataFrame) : Table :=
  {| columns := df_columns df; rows := df_rows df |}.

(** The naming rule in the specification's words: [mid] is [s] without its
    surrounding whitespace, ... *)
Definition trimmed (s mid : str) : Prop :=
  ∃ lead trail,
    s = lead ++ mid ++ trail ∧
    Forall (λ c, isspace c = true) lead ∧
    Forall (λ c, isspace c = true) trail ∧
    (∀ c, head mid = Some c → isspace c = false) ∧
    (∀ c, last mid = Some c → isspace c = false).

(** ... and every space becomes an underscore, every other code point
    stays as it is. *)
Definition spaces_to_underscores (s : str) : str :=
  map (λ c, if N.eqb c SPACE then UNDERSCORE else c) s.

(** The frame of the last sheet of [wb] whose table name is [t]. *)
Fixpoint last_frame (wb : Workbook) (t : str) : option DataFrame :=
  match wb with
  | [] => None
  | (s, df) :: wb' =>
      match last_frame wb' t with
      | Some d => Some d
      | None => if decide (table_name s = t) then Some df else None
      end
  end.

(** The table names the sheets of [wb] derive. *)
Definition table_names (wb : Workbook) : list str :=
  (λ item, table_name item.1) <$> wb.

(** The tables after every sheet of [wb] has been written over [db]. *)
Definition written (wb : Workbook) (db : gmap str Table) : gmap str Table :=
  foldl (λ m item, <[table_name item.1 := table_of_frame item.2]> m) db wb.

(** What a write that raised leaves of the tables. *)
Definition left_behind (f : Fault) (name : str) (df : DataFrame)
    (db : gmap str Table) : gmap str Table :=
  match f with
  | AtStart => db
  | AtCreate => delete name db
  | AtInsert => <[name := {| columns := df_columns df; rows := [] |}]> db
  end.

(** The progress line of one sheet (line 30). *)
Definition saving_line (item : str * DataFrame) : str :=
  Msg.saving_sheet ++ item.1 ++ Msg.in_table ++ table_name item.1 ++ Msg.quote.

Definition the_conn : Connection := {| database := SQLITE_DB |}.

(** A world that differs from [w] in its files and its output. *)
Definition with_files (w : World) (f : gmap str Node) (out : list str) : World :=
  {| cwd := cwd w; links := links w; fs := f;
     open_connections := open_connections w; stdout := out |}.

Definition with_tables (w : World) (db : gmap str Table) (out : list str)
  : World :=
  with_files w (<[SQLITE_DB := RegularFile (Sqlite db)]> (fs w)) out.

(** The sheets whose write does not raise. *)
Definition all_written (env : Env) (wb : Workbook) : Prop :=
  Forall (λ item, to_sql_fault env item.1 = None) wb.

(** The line printed before the workbook is read (line 17). *)
Definition reading_line : str := Msg.reading ++ EXCEL_FILE.

(** The two lines printed after the loop (lines 35-36). *)
Definition closing_lines (w : World) : list str :=
  [Msg.converted; Msg.result_db ++ realpath w SQLITE_DB].

(** What line 15 raises: the [FileNotFoundError] with the resolved path in
    its message, or the error of [resolve] when the path cannot be
    resolved. *)
Definition not_found_error (w : World) : Exn :=
  match resolve EXCEL_FILE w with
  | (Returned resolved, _) => FileNotFoundError (Msg.not_found ++ resolved)
  | (Raised e, _) => e
  end.

(** The database file can be opened as a database: it is one, or there is
    no such file yet. *)
Definition database_ready (w : World) : Prop :=
  fs w !! SQLITE_DB = None ∨
  ∃ db, fs w !! SQLITE_DB = Some (RegularFile (Sqlite db)).

(** What the name [t] holds once the sheets of [wb] are written over the
    tables [db]: the frame of the last sheet that derives [t], and without
    such a sheet what [db] held. *)
Definition held_after (wb : Workbook) (db : gmap str Table) (t : str)
  : option Table :=
  match last_frame wb t with
  | Some df => Some (table_of_frame df)
  | None => db !! t
  end.

(** [sqlite3.connect] does not raise in the run. *)
Definition connects (env : Env) (w : World) : Prop :=
  connect_raises env = false ∧ fs w !! SQLITE_DB ≠ Some Directory.

(** The write of sheet [s] raises in the run: the surroundings make it
    raise, or the file is no database. *)
Definition write_raises (env : Env) (w : World) (s : str) : Prop :=
  to_sql_fault env s ≠ None ∨ ¬ database_ready w.

(** The exits of [main]: the outcome, the files left and the lines printed,
    by what the run met on its way. *)
Inductive exit_of (env : Env) (w : World)
  : Outcome unit → gmap str Node → list str → Prop :=
| exit_not_file :
    (∀ c, fs w !! EXCEL_FILE ≠ Some (RegularFile c)) →
    exit_of env w (Raised (not_found_error w)) (fs w) []
| exit_unreadable c :
    fs w !! EXCEL_FILE = Some (RegularFile c) →
    (∀ wb, c ≠ Xlsx wb) →
    exit_of env w (Raised ReadExcelError) (fs w) [reading_line]
| exit_no_connection wb :
    fs w !! EXCEL_FILE = Some (RegularFile (Xlsx wb)) →
    connect_raises env = true ∨ fs w !! SQLITE_DB = Some Directory →
    exit_of env w (Raised SqliteError) (fs w) [reading_line]
| exit_no_database_no_sheet c :
    fs w !! EXCEL_FILE = Some (RegularFile (Xlsx [])) →
    connect_raises env = false →
    fs w !! SQLITE_DB = Some (RegularFile c) →
    (∀ db, c ≠ Sqlite db) →
    exit_of env w (Returned tt) (fs w) ([reading_line] ++ closing_lines w)
| exit_no_database item wb c :
    fs w !! EXCEL_FILE = Some (RegularFile (Xlsx (item :: wb))) →
    connect_raises env = false →
    fs w !! SQLITE_DB = Some (RegularFile c) →
    (∀ db, c ≠ Sqlite db) →
    exit_of env w (Raised SqliteError) (fs w) [reading_line; saving_line item]
| exit_written wb :
    fs w !! EXCEL_FILE = Some (RegularFile (Xlsx wb)) →
    connect_raises env = false →
    database_ready w →
    all_written env wb →
    exit_of env w (Returned tt)
      (<[SQLITE_DB := RegularFile (Sqlite (written wb (tables w)))]> (fs w))
      ([reading_line] ++ (saving_line <$> wb) ++ closing_lines w)
| exit_fault pre s df post f :
    fs w !! EXCEL_FILE = Some (RegularFile (Xlsx (pre ++ (s, df) :: post))) →
    connect_raises env = false →
    database_ready w →
    all_written env pre →
    to_sql_fault env s = Some f →
    exit_of env w (Raised SqliteError)
      (<[SQLITE_DB := RegularFile
           (Sqlite (left_behind f (table_name s) df (written pre (tables w))))]> (fs w))
      ([reading_line] ++ (saving_line <$> pre ++ [(s, df)])).

(** ** Sample workbooks and worlds *)

Module Examples.

Definition sales : DataFrame :=
  {| df_columns := [lit "id"; lit "item"; lit "price"];
     df_rows := [[Integer 1; Text (lit "pen"); Integer 3];
                 [Integer 2; Text (lit "ink"); Null]] |}.

Definition stock : DataFrame :=
  {| df_columns := [lit "item"; lit "qty"];
     df_rows := [[Text (lit "pen"); Integer 40]] |}.

Definition old_table : Table :=
  {| columns := [lit "k"]; rows := [[Integer 0]] |}.

Definition no_faults : Env :=
  {| connect_raises := false; to_sql_fault := λ _, None |}.

(** The write of the sheet named [s] raises at [f]. *)
Definition fault_on (s : str) (f : Fault) : Env :=
  {| connect_raises := false;
     to_sql_fault := λ s', if decide (s' = s) then Some f else None |}.

(** A directory that holds only the workbook. *)
Definition fresh (wb : Workbook) : World :=
  {| cwd := lit "/home/user";
     links := ∅;
     fs := {[ EXCEL_FILE := RegularFile (Xlsx wb) ]};
     open_connections := 0;
     stdout := [] |}.

(** A directory that holds the workbook and a database with tables [db]. *)
Definition with_database (wb : Workbook) (db : gmap str Table) : World :=
  {| cwd := lit "/home/user";
     links := ∅;
     fs := {[ EXCEL_FILE := RegularFile (Xlsx wb);
              SQLITE_DB := RegularFile (Sqlite db) ]};
     open_connections := 0;
     stdout := [] |}.

(** A directory in which [node], if any, sits at the workbook's path. *)
Definition without_workbook (node : option Node) : World :=
  {| cwd := lit "/home/user";
     links := ∅;
     fs := match node with Some n => {[ EXCEL_FILE := n ]} | None => ∅ end;
     open_connections := 0;
     stdout := [] |}.

(** Two sheets whose names derive the same table name. *)
Definition colliding : Workbook := [(lit "A B", sales); (lit "A_B", stock)].

Definition two_sheets : Workbook :=
  [(lit "Sales Data", sales); (lit "Inventory", stock)].

Definition three_sheets : Workbook :=
  [(lit "Sales Data", sales); (lit "Inventory", stock); (lit "Notes", sales)].

(** A database that already has a table of another name. *)
Definition colliding_beside_old : World :=
  with_database colliding {[ lit "Z" := old_table ]}.

(** A database that already has the table of the second sheet, as an
    earlier run leaves it. *)
Definition two_sheets_over_old : World :=
  with_database two_sheets {[ lit "Inventory" := old_table ]}.

(** The workbook path is a symbolic link to a file that is not there. *)
Definition dangling_link : World :=
  {| cwd := lit "/home/user";
     links := {[ EXCEL_FILE := LinkTo (lit "/home/user/elsewhere.xlsx") ]};
     fs := ∅;
     open_connections := 0;
     stdout := [] |}.


(** The workbook path is a symbolic link to a directory. *)
Definition link_to_directory : World :=
  {| cwd := lit "/home/user";
     links := {[ EXCEL_FILE := LinkTo (lit "/home/user/realdir") ]};
     fs := {[ EXCEL_FILE := Directory ]};
     open_connections := 0;
     stdout := [] |}.

(** The script run in the root directory, over workbook [wb]. *)
Definition at_root (wb : Workbook) : World :=
  {| cwd := lit "/";
     links := ∅;
     fs := {[ EXCEL_FILE := RegularFile (Xlsx wb) ]};
     open_connections := 0;
     stdout := [] |}.

End Examples.

(** * Strings *)

Example table_name_sales : table_name (lit "Sales Data") = lit "Sales_Data".
Proof. reflexivity. Qed.

Example table_name_padded : table_name (lit "  Q1 totals ") = lit "Q1_totals".
Proof. reflexivity. Qed.

(** A no-break space at either end is whitespace for [strip]; a tab inside
    the name is not a space and stays. *)
Example table_name_nbsp_tab :
  table_name ([160] ++ lit "a" ++ [9] ++ lit "B c" ++ [160; 32])%N
  = (lit "a" ++ [9] ++ lit "B_c")%N.
Proof. reflexivity. Qed.


(** In the root directory no second separator is put before the name; a
    symbolic link resolves to where it leads. *)
Example realpath_at_root :
  realpath (Examples.at_root []) EXCEL_FILE = lit "/db.xlsx" ∧
  realpath (Examples.at_root []) SQLITE_DB = lit "/data.db".
Proof. split; reflexivity. Qed.

Example realpath_of_link :
  realpath Examples.dangling_link EXCEL_FILE = lit "/home/user/elsewhere.xlsx" ∧
  realpath Examples.dangling_link SQLITE_DB = lit "/home/user/data.db".
Proof. split; reflexivity. Qed.

Section Strings.

Implicit Types s p lead trail mid : str.

Lemma replace_one_char (c d : codepoint) s :
  replace [c] [d] s = map (λ x, if N.eqb x c then d else x) s.
Proof.
  unfold replace. induction s as [|x s IH]; [done|].
  cbn [replace_from startswith length pred map].
  rewrite andb_true_r, (N.eqb_sym c x).
  destruct (N.eqb x c); cbn; by rewrite IH.
Qed.

Lemma lstrip_all_space lead s :
  Forall (λ c, isspace c = true) lead → lstrip (lead ++ s) = lstrip s.
Proof.
  induction 1 as [|c lead Hc _ IH]; [done|].
  cbn [app lstrip]. by rewrite Hc.
Qed.

Lemma lstrip_head s :
  (∀ c, head s = Some c → isspace c = false) → lstrip s = s.
Proof.
  destruct s as [|c s]; [done|]. intros H. cbn [lstrip].
  by rewrite (H c eq_refl).
Qed.

Lemma lstrip_split s :
  ∃ lead, s = lead ++ lstrip s ∧ Forall (λ c, isspace c = true) lead ∧
          (∀ c, head (lstrip s) = Some c → isspace c = false).
Proof.
  induction s as [|c s (lead & Hs & Hlead & Hhd)].
  - exists []. by repeat split.
  - cbn [lstrip]. destruct (isspace c) eqn:Hc.
    + exists (c :: lead). repeat split; [by rewrite <- app_comm_cons, <- Hs | by constructor | done].
    + exists []. repeat split; [done|]. intros c' [= <-]. done.
Qed.

Lemma head_prefix s p c : head (s ++ p) = Some c → s ≠ [] → head s = Some c.
Proof. by destruct s. Qed.

Lemma strip_trimmed s : trimmed s (strip s).
Proof.
  destruct (lstrip_split s) as (lead & Hs & Hlead & Hhd).
  destruct (lstrip_split (reverse (lstrip s))) as (tr & Hr & Htr & Hlast).
  exists lead, (reverse tr). unfold strip, rstrip. repeat split.
  - rewrite <- reverse_app, <- Hr, reverse_involutive. exact Hs.
  - exact Hlead.
  - by apply Forall_reverse.
  - intros c Hc. apply Hhd.
    apply (f_equal reverse) in Hr. rewrite reverse_involutive, reverse_app in Hr.
    rewrite Hr. destruct (reverse (lstrip (reverse (lstrip s)))); [done|exact Hc].
  - intros c Hc. apply Hlast. by rewrite <- head_reverse, reverse_involutive in Hc.
Qed.

Lemma trimmed_unique s mid : trimmed s mid → strip s = mid.
Proof.
  intros (lead & trail & -> & Hlead & Htrail & Hhd & Hlast).
  unfold strip, rstrip. rewrite (lstrip_all_space lead) by done.
  destruct mid as [|c mid].
  - cbn [app]. replace (lstrip trail) with (@nil codepoint); [done|].
    clear -Htrail. induction Htrail as [|c t Hc _ IH]; [done|].
    cbn [lstrip]. by rewrite Hc.
  - rewrite (lstrip_head ((c :: mid) ++ trail)) by (intros c' [= <-]; by apply Hhd).
    rewrite reverse_app, lstrip_all_space by by apply Forall_reverse.
    rewrite lstrip_head; [by rewrite reverse_involutive|].
    intros c'. rewrite head_reverse. apply Hlast.
Qed.

End Strings.

(** * One write *)

Section Writes.

Implicit Types (db : gmap str Table) (wb pre post : Workbook) (df : DataFrame).

Lemma write_frame_ok df name db :
  write_frame None df name IfExistsReplace false db
  = (Returned tt, <[name := table_of_frame df]> db).
Proof.
  unfold write_frame, create_table, drop_table, insert_rows, frame_columns,
    frame_rows, table_of_frame.
  destruct (db !! name); cbn;
    by rewrite ?insert_delete_eq, alter_insert_eq.
Qed.

Lemma write_frame_fault f df name db :
  write_frame (Some f) df name IfExistsReplace false db
  = (Raised SqliteError, left_behind f name df db).
Proof.
  unfold write_frame, create_table, drop_table, left_behind, frame_columns.
  destruct f, (db !! name) eqn:Hn; cbn; try done.
  - by rewrite delete_id.
  - by rewrite insert_delete_eq.
Qed.

Lemma written_snoc wb item db :
  written (wb ++ [item]) db
  = <[table_name item.1 := table_of_frame item.2]> (written wb db).
Proof. unfold written. by rewrite foldl_app. Qed.

Lemma last_frame_snoc wb s df t :
  last_frame (wb ++ [(s, df)]) t
  = if decide (table_name s = t) then Some df else last_frame wb t.
Proof.
  induction wb as [|[s' d'] wb IH]; cbn [app last_frame].
  - done.
  - rewrite IH. destruct (decide (table_name s = t)); [done|].
    by destruct (last_frame wb t).
Qed.

Lemma written_lookup wb db t : written wb db !! t = held_after wb db t.
Proof.
  unfold held_after. induction wb as [|[s df] wb IH] using rev_ind; [done|].
  rewrite written_snoc, last_frame_snoc, lookup_insert. cbn [fst snd].
  destruct (decide (table_name s = t)); [done|exact IH].
Qed.

Lemma last_frame_is_Some wb t :
  is_Some (last_frame wb t) ↔ t ∈ table_names wb.
Proof.
  unfold table_names. induction wb as [|[s df] wb IH]; cbn [last_frame fmap list_fmap].
  - split; [intros [? [=]] | by intros ?%elem_of_nil].
  - rewrite elem_of_cons. cbn [fst].
    destruct (last_frame wb t) eqn:E.
    + split; [intros _; right; apply IH; eauto | eauto].
    + destruct (decide (table_name s = t)) as [->|Hne].
      * split; eauto.
      * split; [intros [? [=]] |].
        intros [?|Hin]; [congruence|]. apply IH in Hin. by destruct Hin.
Qed.

Lemma written_dom wb db :
  dom (written wb db) = dom db ∪ list_to_set (table_names wb).
Proof.
  unfold table_names. induction wb as [|item wb IH] using rev_ind.
  - cbn. set_solver.
  - rewrite written_snoc, dom_insert_L, IH, fmap_app, list_to_set_app_L.
    cbn. set_solver.
Qed.

End Writes.

(** * The loop and the whole run *)

Section Run.

Context (env : Env).

Implicit Types (w : World) (db : gmap str Table) (wb pre post : Workbook)
  (df : DataFrame) (s : str).

Lemma paths_differ : EXCEL_FILE ≠ SQLITE_DB.
Proof. discriminate. Qed.

Lemma save_sheet_ok w db s df :
  fs w !! SQLITE_DB = Some (RegularFile (Sqlite db)) →
  to_sql_fault env s = None →
  save_sheet env the_conn (s, df) w
  = (Returned tt,
     with_tables w (<[table_name s := table_of_frame df]> db)
       (stdout w ++ [saving_line (s, df)])).
Proof.
  intros Hdb Hok.
  unfold save_sheet, mbind, M_bind, bind, print, to_sql, the_conn.
  cbn [fs set_stdout database]. by rewrite Hdb, Hok, write_frame_ok.
Qed.

Lemma save_sheet_fault w db s df f :
  fs w !! SQLITE_DB = Some (RegularFile (Sqlite db)) →
  to_sql_fault env s = Some f →
  save_sheet env the_conn (s, df) w
  = (Raised SqliteError,
     with_tables w (left_behind f (table_name s) df db)
       (stdout w ++ [saving_line (s, df)])).
Proof.
  intros Hdb Hf.
  unfold save_sheet, mbind, M_bind, bind, print, to_sql, the_conn.
  cbn [fs set_stdout database]. by rewrite Hdb, Hf, write_frame_fault.
Qed.

Lemma save_sheet_no_database w s df :
  (∀ db, fs w !! SQLITE_DB ≠ Some (RegularFile (Sqlite db))) →
  save_sheet env the_conn (s, df) w
  = (Raised SqliteError, with_files w (fs w) (stdout w ++ [saving_line (s, df)])).
Proof.
  intros Hdb.
  unfold save_sheet, mbind, M_bind, bind, print, to_sql, the_conn.
  cbn [fs set_stdout database].
  destruct (fs w !! SQLITE_DB) as [[|[]]|] eqn:E; try done.
  by destruct (Hdb db).
Qed.

Lemma with_tables_lookup w db out :
  fs (with_tables w db out) !! SQLITE_DB = Some (RegularFile (Sqlite db)).
Proof. apply lookup_insert_eq. Qed.

Lemma with_tables_again w db db' out out' :
  with_tables (with_tables w db out) db' out' = with_tables w db' out'.
Proof. unfold with_tables, with_files. cbn. by rewrite insert_insert_eq. Qed.

Lemma with_tables_same w db :
  fs w !! SQLITE_DB = Some (RegularFile (Sqlite db)) →
  with_tables w db (stdout w) = w.
Proof.
  intros H. unfold with_tables, with_files. rewrite insert_id by done.
  by destruct w.
Qed.

Lemma loop_all_written wb w db :
  fs w !! SQLITE_DB = Some (RegularFile (Sqlite db)) →
  all_written env wb →
  for_each (save_sheet env the_conn) wb w
  = (Returned tt, with_tables w (written wb db) (stdout w ++ (saving_line <$> wb))).
Proof.
  intros Hdb Hall. revert w db Hdb.
  induction Hall as [|[s df] wb Hok _ IH]; intros w db Hdb.
  - cbn. by rewrite app_nil_r, with_tables_same.
  - cbn [for_each]. unfold mbind, M_bind, bind.
    rewrite (save_sheet_ok w db) by done.
    rewrite (IH _ _ (with_tables_lookup _ _ _)), with_tables_again.
    cbn [stdout with_tables with_files fmap list_fmap].
    by rewrite <- app_assoc.
Qed.

Lemma loop_fault pre s df post f w db :
  fs w !! SQLITE_DB = Some (RegularFile (Sqlite db)) →
  all_written env pre →
  to_sql_fault env s = Some f →
  for_each (save_sheet env the_conn) (pre ++ (s, df) :: post) w
  = (Raised SqliteError,
     with_tables w (left_behind f (table_name s) df (written pre db))
       (stdout w ++ (saving_line <$> pre ++ [(s, df)]))).
Proof.
  intros Hdb Hall Hf. revert w db Hdb.
  induction Hall as [|[s' df'] pre Hok _ IH]; intros w db Hdb.
  - cbn [app for_each]. unfold mbind, M_bind, bind.
    by rewrite (save_sheet_fault w db s df f).
  - cbn [app for_each]. unfold mbind, M_bind, bind.
    rewrite (save_sheet_ok w db) by done.
    rewrite (IH _ _ (with_tables_lookup _ _ _)), with_tables_again.
    cbn [stdout with_tables with_files fmap list_fmap app].
    by rewrite <- app_assoc.
Qed.

(** Every workbook is written through, or has a first sheet whose write
    raises. *)
Lemma first_fault wb :
  all_written env wb ∨
  ∃ pre s df post f, wb = pre ++ (s, df) :: post ∧ all_written env pre ∧
                     to_sql_fault env s = Some f.
Proof.
  induction wb as [|[s df] wb [IH|(pre & s' & df' & post & f & -> & Hpre & Hf)]].
  - left. constructor.
  - destruct (to_sql_fault env s) as [f|] eqn:Hs.
    + right. exists [], s, df, wb, f. by repeat split; [constructor|].
    + left. by constructor.
  - destruct (to_sql_fault env s) as [f0|] eqn:Hs.
    + right. exists [], s, df, (pre ++ (s', df') :: post), f0.
      by repeat split; [constructor|].
    + right. exists ((s, df) :: pre), s', df', post, f.
      by repeat split; [constructor|].
Qed.

Lemma path_name_excel : path_name EXCEL_FILE = EXCEL_FILE.
Proof. reflexivity. Qed.

Lemma excel_relative : startswith [SLASH] EXCEL_FILE = false.
Proof. reflexivity. Qed.

Lemma sqlite_relative : startswith [SLASH] SQLITE_DB = false.
Proof. reflexivity. Qed.

(** Projections of an updated world, and nothing else, are computed. *)
Ltac world_simpl :=
  cbn [negb fs stdout cwd links open_connections set_stdout set_fs
       set_open_connections database the_conn with_files with_tables].

Lemma resolve_cases p w :
  resolve p w = (Returned (realpath w p), w) ∨
  (resolve p w = (Raised RuntimeError, w) ∧
   links w !! p = Some LinkLoop ∧ fs w !! p = None).
Proof.
  unfold resolve.
  destruct (links w !! p) as [[t|]|]; [by left| |by left].
  destruct (fs w !! p); [by left|by right].
Qed.

Lemma resolve_named p w :
  is_Some (fs w !! p) → resolve p w = (Returned (realpath w p), w).
Proof.
  intros [n Hn]. unfold resolve. rewrite Hn.
  by destruct (links w !! p) as [[t|]|].
Qed.

Lemma realpath_same w w' p :
  cwd w' = cwd w → links w' = links w → realpath w' p = realpath w p.
Proof. unfold realpath. by intros -> ->. Qed.

Lemma main_not_file w :
  (∀ c, fs w !! EXCEL_FILE ≠ Some (RegularFile c)) →
  main env w = (Raised (not_found_error w), w).
Proof.
  intros Hno. unfold main, mbind, M_bind, bind, is_file, raise, not_found_error.
  destruct (fs w !! EXCEL_FILE) as [[|c]|] eqn:E; world_simpl;
    try (by destruct (resolve_cases EXCEL_FILE w) as [->|[-> _]]).
  by destruct (Hno c).
Qed.

(** What line 15 raises, spelled out. *)
Lemma not_found_error_resolved w :
  ¬ (links w !! EXCEL_FILE = Some LinkLoop ∧ fs w !! EXCEL_FILE = None) →
  not_found_error w = FileNotFoundError (Msg.not_found ++ realpath w EXCEL_FILE).
Proof.
  intros Hno. unfold not_found_error.
  destruct (resolve_cases EXCEL_FILE w) as [->|(_ & Hl & Hf)]; [done|].
  by destruct Hno.
Qed.


Lemma main_unreadable w c :
  fs w !! EXCEL_FILE = Some (RegularFile c) →
  (∀ wb, c ≠ Xlsx wb) →
  main env w = (Raised ReadExcelError, with_files w (fs w) (stdout w ++ [reading_line])).
Proof.
  intros E Hc. unfold main, mbind, M_bind, bind, is_file, read_excel, print.
  rewrite E, path_name_excel. world_simpl. unfold mret, M_ret, ret.
  world_simpl. rewrite E. destruct c as [wb| |]; try done.
  by destruct (Hc wb).
Qed.

Lemma main_connect_raises w wb :
  fs w !! EXCEL_FILE = Some (RegularFile (Xlsx wb)) →
  connect_raises env = true ∨ fs w !! SQLITE_DB = Some Directory →
  main env w = (Raised SqliteError, with_files w (fs w) (stdout w ++ [reading_line])).
Proof.
  intros E Hc.
  unfold main, mbind, M_bind, bind, is_file, read_excel, print, connect.
  rewrite E, path_name_excel. world_simpl. unfold mret, M_ret, ret.
  world_simpl. rewrite E. world_simpl.
  destruct (connect_raises env); [done|].
  destruct Hc as [|Hd]; [done|]. by rewrite Hd.
Qed.

(** From the [connect] on, for a database file that can be opened. *)
Lemma main_connected w wb :
  fs w !! EXCEL_FILE = Some (RegularFile (Xlsx wb)) →
  connect_raises env = false →
  database_ready w →
  ∃ w1, fs w1 !! SQLITE_DB = Some (RegularFile (Sqlite (tables w))) ∧
        (∀ db out, set_open_connections (pred (open_connections w1))
                     (with_tables w1 db out) = with_tables w db out) ∧
        stdout w1 = stdout w ++ [reading_line] ∧
        (cwd w1 = cwd w ∧ links w1 = links w) ∧
        main env w
        = try_finally
            (for_each (save_sheet env the_conn) wb ;;
             print Msg.converted ;;
             resolved ← resolve SQLITE_DB ;
             print (Msg.result_db ++ resolved))
            (close the_conn) w1.
Proof.
  intros E Hc Hready.
  unfold main at 1, mbind at 1 2 3 4 5, M_bind at 1 2 3 4 5, bind at 1 2 3 4 5.
  unfold is_file, read_excel, print, connect, tables.
  rewrite E, path_name_excel. world_simpl. unfold mret at 1, M_ret at 1, ret at 1.
  world_simpl. rewrite E, Hc. world_simpl.
  destruct Hready as [Hnone|[db Hdb]].
  - rewrite Hnone. eexists. split; [|split; [|split; [|split; [|reflexivity]]]].
    + world_simpl. apply lookup_insert_eq.
    + intros db out. unfold set_open_connections. world_simpl.
      by rewrite insert_insert_eq.
    + done.
    + done.
  - rewrite Hdb. eexists. split; [|split; [|split; [|split; [|reflexivity]]]].
    + exact Hdb.
    + done.
    + done.
    + done.
Qed.

Lemma main_all_written w wb :
  fs w !! EXCEL_FILE = Some (RegularFile (Xlsx wb)) →
  connect_raises env = false →
  database_ready w →
  all_written env wb →
  main env w
  = (Returned tt,
     with_tables w (written wb (tables w))
       (stdout w ++ [reading_line] ++ (saving_line <$> wb) ++ closing_lines w)).
Proof.
  intros E Hc Hready Hall.
  destruct (main_connected w wb E Hc Hready)
    as (w1 & Hdb & Hclose & Hout & [Hcwd Hlinks] & ->).
  unfold try_finally, mbind, M_bind, bind.
  rewrite (loop_all_written wb w1 _ Hdb Hall).
  unfold print at 1.
  rewrite resolve_named by (world_simpl; rewrite lookup_insert_eq; eauto).
  rewrite (realpath_same w) by done.
  unfold print, close.
  unfold set_stdout, set_open_connections at 1. world_simpl.
  rewrite Hout, <- (Hclose (written wb (tables w))).
  unfold set_open_connections, closing_lines. world_simpl.
  by rewrite <- !app_assoc.
Qed.

Lemma main_fault w pre s df post f :
  fs w !! EXCEL_FILE = Some (RegularFile (Xlsx (pre ++ (s, df) :: post))) →
  connect_raises env = false →
  database_ready w →
  all_written env pre →
  to_sql_fault env s = Some f →
  main env w
  = (Raised SqliteError,
     with_tables w (left_behind f (table_name s) df (written pre (tables w)))
       (stdout w ++ [reading_line] ++ (saving_line <$> pre ++ [(s, df)]))).
Proof.
  intros E Hc Hready Hall Hf.
  destruct (main_connected w _ E Hc Hready) as (w1 & Hdb & Hclose & Hout & _ & ->).
  unfold try_finally, mbind, M_bind, bind.
  rewrite (loop_fault pre s df post f w1 _ Hdb Hall Hf).
  unfold close. unfold set_open_connections at 1. world_simpl.
  rewrite Hout, <- (Hclose (left_behind f (table_name s) df (written pre (tables w)))).
  unfold set_open_connections. world_simpl.
  by rewrite <- !app_assoc.
Qed.

(** A regular file at the database path that is no database: [connect]
    opens it, the first write raises. *)
Lemma main_not_database w wb c :
  fs w !! EXCEL_FILE = Some (RegularFile (Xlsx wb)) →
  connect_raises env = false →
  fs w !! SQLITE_DB = Some (RegularFile c) →
  (∀ db, c ≠ Sqlite db) →
  main env w
  = match wb with
    | [] => (Returned tt,
             with_files w (fs w) (stdout w ++ [reading_line] ++ closing_lines w))
    | item :: _ => (Raised SqliteError,
                    with_files w (fs w) (stdout w ++ [reading_line; saving_line item]))
    end.
Proof.
  intros E Hc Hdb Hno.
  unfold main, mbind at 1 2 3 4 5, M_bind at 1 2 3 4 5, bind at 1 2 3 4 5.
  unfold is_file, read_excel, print at 1, connect.
  rewrite E, path_name_excel. world_simpl. unfold mret at 1, M_ret at 1, ret at 1.
  world_simpl. rewrite E, Hc. world_simpl. rewrite Hdb.
  unfold try_finally. destruct wb as [|[s df] wb].
  - cbn [for_each]. unfold mbind, M_bind, bind, mret, M_ret, ret, print at 1.
    rewrite resolve_named by (world_simpl; rewrite Hdb; eauto).
    rewrite (realpath_same w) by done.
    unfold print, close, set_stdout, set_open_connections, closing_lines.
    world_simpl. by rewrite <- !app_assoc.
  - cbn [for_each]. unfold mbind, M_bind, bind.
    rewrite save_sheet_no_database.
    + unfold close, set_stdout, set_open_connections. world_simpl.
      by rewrite <- !app_assoc.
    + world_simpl. rewrite Hdb. intros db [= ->]. by destruct (Hno db).
Qed.

Lemma tables_with_tables w db out : tables (with_tables w db out) = db.
Proof. unfold tables. by rewrite with_tables_lookup. Qed.

Lemma tables_with_files w out : tables (with_files w (fs w) out) = tables w.
Proof. done. Qed.

Lemma tables_not_database w :
  (∀ db, fs w !! SQLITE_DB ≠ Some (RegularFile (Sqlite db))) → tables w = ∅.
Proof.
  intros Hno. unfold tables.
  destruct (fs w !! SQLITE_DB) as [[|[]]|] eqn:E; try done. by destruct (Hno db).
Qed.

(** A run that returns has written every sheet. *)
Lemma main_returned_tables w wb w' :
  fs w !! EXCEL_FILE = Some (RegularFile (Xlsx wb)) →
  main env w = (Returned tt, w') →
  tables w' = written wb (tables w) ∧ open_connections w' = open_connections w.
Proof.
  intros E Hrun.
  destruct (connect_raises env) eqn:Hc.
  { rewrite (main_connect_raises w wb E) in Hrun by by left. done. }
  destruct (fs w !! SQLITE_DB) as [[|c]|] eqn:Hdb.
  - rewrite (main_connect_raises w wb E) in Hrun by by right. done.
  - assert (Hcases : (∃ db, c = Sqlite db) ∨ (∀ db, c ≠ Sqlite db))
      by (destruct c; eauto).
    destruct Hcases as [[db ->]|Hno].
    + assert (Hready : database_ready w) by (right; eauto).
      destruct (first_fault wb) as [Hall|(pre & s & df & post & f & -> & Hpre & Hf)].
      * rewrite (main_all_written w wb E Hc Hready Hall) in Hrun.
        injection Hrun as <-. by rewrite tables_with_tables.
      * by rewrite (main_fault w pre s df post f E Hc Hready Hpre Hf) in Hrun.
    + rewrite (main_not_database w wb c E Hc Hdb Hno) in Hrun.
      destruct wb; [|done]. injection Hrun as <-.
      rewrite tables_with_files, tables_not_database; [done|].
      rewrite Hdb. intros db [= ->]. by destruct (Hno db).
  - assert (Hready : database_ready w) by by left.
    destruct (first_fault wb) as [Hall|(pre & s & df & post & f & -> & Hpre & Hf)].
    + rewrite (main_all_written w wb E Hc Hready Hall) in Hrun.
      injection Hrun as <-. by rewrite tables_with_tables.
    + by rewrite (main_fault w pre s df post f E Hc Hready Hpre Hf) in Hrun.
Qed.

End Run.

(** * Counting tables *)

Section Counting.

Implicit Types (l : list str) (X Y : gset str).

Lemma size_union_le X Y : size (X ∪ Y) ≤ size X + size Y.
Proof.
  rewrite size_union_alt.
  assert (size (Y ∖ X) ≤ size Y) by (apply subseteq_size; set_solver). lia.
Qed.

Lemma size_list_to_set_le l : size (list_to_set l : gset str) ≤ length l.
Proof.
  induction l as [|x l IH]; cbn [list_to_set length].
  - by rewrite size_empty.
  - pose proof (size_union_le {[x]} (list_to_set l)) as H.
    rewrite size_singleton in H. lia.
Qed.

(** A list with the same entry at two positions has fewer distinct entries
    than positions. *)
Lemma size_list_to_set_repeated l i j x :
  i < j → l !! i = Some x → l !! j = Some x →
  size (list_to_set l : gset str) < length l.
Proof.
  intros Hij Hi Hj.
  assert (Hsplit : l = take i l ++ x :: drop (S i) l)
    by (symmetry; by apply take_drop_middle).
  assert (Hin : x ∈ drop (S i) l).
  { apply list_elem_of_lookup. exists (j - S i).
    rewrite lookup_drop. by replace (S i + (j - S i)) with j by lia. }
  assert (Hset : (list_to_set l : gset str) = list_to_set (take i l ++ drop (S i) l)).
  { rewrite Hsplit at 1. rewrite !list_to_set_app_L. cbn [list_to_set].
    assert (x ∈ (list_to_set (drop (S i) l) : gset str)) by by apply elem_of_list_to_set.
    set_solver. }
  rewrite Hset. pose proof (size_list_to_set_le (take i l ++ drop (S i) l)) as Hle.
  apply (f_equal length) in Hsplit. rewrite length_app in Hsplit, Hle.
  cbn [length] in Hsplit. lia.
Qed.

End Counting.

(** * The table name *)

(** C2.  The table name of a sheet is the sheet name with its surrounding
    whitespace trimmed and every space that remains replaced by an
    underscore; every other code point is kept as it is (no case folding,
    no escaping). *)
Theorem table_name_trim_underscore (s mid : str) :
  trimmed s mid → table_name s = spaces_to_underscores mid.
Proof.
  intros Hmid. unfold table_name, str_of, spaces_to_underscores.
  by rewrite (trimmed_unique s mid Hmid), replace_one_char.
Qed.

Lemma table_name_trim_underscore_witness :
  trimmed (lit " Sales D'ata ") (lit "Sales D'ata") ∧
  table_name (lit " Sales D'ata ") = lit "Sales_D'ata".
Proof.
  assert (H : trimmed (lit " Sales D'ata ") (lit "Sales D'ata")).
  { exists (lit " "), (lit " "). repeat split.
    - repeat constructor.
    - repeat constructor.
    - by intros c [= <-].
    - by intros c [= <-]. }
  split; [exact H|]. exact (table_name_trim_underscore _ _ H).
Defined.

(** * Runs that stop before the database *)

Section Early_exits.

Context (env : Env).
Implicit Types w : World.


(** C10.  A directory at the workbook path gets the same error as a missing
    path, with the resolved path (the directory's own for a link to it),
    and the world is as before. *)
Theorem directory_workbook_same_error w :
  fs w !! EXCEL_FILE = Some Directory →
  main env w
  = (Raised (FileNotFoundError (Msg.not_found ++ realpath w EXCEL_FILE)), w)
  ∧ (links w !! EXCEL_FILE ≠ Some LinkLoop →
     (main env w).1 = (main env (set_fs (delete EXCEL_FILE (fs w)) w)).1).
Proof.
  intros Hdir.
  assert (Hw : main env w
    = (Raised (FileNotFoundError (Msg.not_found ++ realpath w EXCEL_FILE)), w)).
  { rewrite main_not_file by (intros c; by rewrite Hdir).
    rewrite not_found_error_resolved; [done|]. intros [_ Hnone]. congruence. }
  split; [exact Hw|]. intros Hno. rewrite Hw.
  rewrite main_not_file
    by (intros c; cbn [fs set_fs]; by rewrite lookup_delete_eq).
  rewrite not_found_error_resolved; [done|]. by intros [? _].
Qed.

(** C7.  When the workbook is a regular file that [pd.read_excel] cannot
    read, [main] raises the reader's error, no file is created or changed
    and no connection was opened. *)
Theorem unreadable_workbook_no_writes w c :
  fs w !! EXCEL_FILE = Some (RegularFile c) →
  (∀ wb, c ≠ Xlsx wb) →
  (main env w).1 = Raised ReadExcelError ∧
  fs (main env w).2 = fs w ∧
  open_connections (main env w).2 = open_connections w.
Proof. intros E Hc. by rewrite (main_unreadable env w c E Hc). Qed.

(** C9.  With no database file before the run, a workbook that cannot be
    read leaves none after it; for a workbook that can be read it is the
    [connect], when it does not raise, that makes the file exist. *)
Theorem unreadable_workbook_no_database_file w c :
  fs w !! EXCEL_FILE = Some (RegularFile c) →
  fs w !! SQLITE_DB = None →
  ((∀ wb, c ≠ Xlsx wb) → fs (main env w).2 !! SQLITE_DB = None) ∧
  (∀ wb, c = Xlsx wb → connect_raises env = false →
         is_Some (fs (main env w).2 !! SQLITE_DB)).
Proof.
  intros E Hnone. split.
  - intros Hc. by rewrite (main_unreadable env w c E Hc).
  - intros wb -> Hcon.
    assert (Hready : database_ready w) by by left.
    destruct (first_fault env wb) as [Hall|(pre & s & df & post & f & -> & Hpre & Hf)].
    + rewrite (main_all_written env w wb E Hcon Hready Hall).
      cbn [snd]. rewrite with_tables_lookup. eauto.
    + rewrite (main_fault env w pre s df post f E Hcon Hready Hpre Hf).
      cbn [snd]. rewrite with_tables_lookup. eauto.
Qed.

End Early_exits.



Lemma directory_workbook_same_error_witness :
  fs Examples.link_to_directory !! EXCEL_FILE = Some Directory ∧
  (main Examples.no_faults Examples.link_to_directory).1
  = Raised (FileNotFoundError (Msg.not_found ++ lit "/home/user/realdir")).
Proof.
  split; [reflexivity|].
  by rewrite (proj1 (directory_workbook_same_error Examples.no_faults
                       Examples.link_to_directory eq_refl)).
Defined.

Lemma unreadable_workbook_no_writes_witness :
  (main Examples.no_faults (Examples.without_workbook (Some (RegularFile Bytes)))).1
  = Raised ReadExcelError ∧
  fs (main Examples.no_faults (Examples.without_workbook (Some (RegularFile Bytes)))).2
  = fs (Examples.without_workbook (Some (RegularFile Bytes))).
Proof.
  destruct (unreadable_workbook_no_writes Examples.no_faults
              (Examples.without_workbook (Some (RegularFile Bytes))) Bytes eq_refl
              ltac:(discriminate)) as (Hr & Hfs & _).
  by split.
Defined.

Lemma unreadable_workbook_no_database_file_witness :
  fs (main Examples.no_faults
        (Examples.without_workbook (Some (RegularFile Bytes)))).2 !! SQLITE_DB = None.
Proof.
  apply (unreadable_workbook_no_database_file Examples.no_faults
           (Examples.without_workbook (Some (RegularFile Bytes))) Bytes eq_refl eq_refl).
  discriminate.
Defined.

(** * Runs that return *)

Section Returned_runs.

Context (env : Env).
Implicit Types (w : World) (wb pre post : Workbook) (df : DataFrame) (s t : str).

Lemma last_frame_last pre s df post :
  table_name s ∉ table_names post →
  last_frame (pre ++ (s, df) :: post) (table_name s) = Some df.
Proof.
  intros Hpost. induction pre as [|[s' df'] pre IH]; cbn [app last_frame].
  - destruct (last_frame post (table_name s)) eqn:E.
    + destruct Hpost. apply last_frame_is_Some. eauto.
    + by rewrite decide_True.
  - by rewrite IH.
Qed.

(** C6.  The write of a sheet that returns leaves, under the sheet's table
    name, a table with exactly the frame's columns in their order (no index
    column) and exactly its data rows in their order, so as many rows as the
    sheet has data rows; a run that returns still holds that table at its
    end unless a later sheet has the same table name. *)
Theorem written_sheet_is_frame :
  (∀ w w' s df,
     save_sheet env the_conn (s, df) w = (Returned tt, w') →
     ∃ tbl, tables w' !! table_name s = Some tbl ∧
            columns tbl = df_columns df ∧ rows tbl = df_rows df ∧
            length (rows tbl) = length (df_rows df)) ∧
  (∀ w w' pre s df post,
     fs w !! EXCEL_FILE = Some (RegularFile (Xlsx (pre ++ (s, df) :: post))) →
     main env w = (Returned tt, w') →
     table_name s ∉ table_names post →
     ∃ tbl, tables w' !! table_name s = Some tbl ∧
            columns tbl = df_columns df ∧ rows tbl = df_rows df ∧
            length (rows tbl) = length (df_rows df)).
Proof.
  split.
  - intros w w' s df Hstep. exists (table_of_frame df).
    split; [|done].
    destruct (fs w !! SQLITE_DB) as [[|[wb|db|]]|] eqn:Hdb;
      try (rewrite save_sheet_no_database in Hstep by (by rewrite Hdb); done).
    destruct (to_sql_fault env s) as [f|] eqn:Hf.
    + by rewrite (save_sheet_fault env w db s df f Hdb Hf) in Hstep.
    + rewrite (save_sheet_ok env w db s df Hdb Hf) in Hstep.
      injection Hstep as <-. by rewrite tables_with_tables, lookup_insert_eq.
  - intros w w' pre s df post E Hrun Hpost. exists (table_of_frame df).
    split; [|done].
    destruct (main_returned_tables env w _ w' E Hrun) as [-> _].
    by rewrite written_lookup; unfold held_after; rewrite last_frame_last.
Qed.

(** C1, as the code has it.  After a run that returns, every table name
    derived from a sheet holds exactly the frame of the last sheet deriving
    it (a table that was there is replaced, not extended) and every other
    name holds what it held before; so the tables are the derived names
    together with the names already there, and there are as many tables as
    sheets when the derived names are pairwise distinct and no table of
    another name was there before. *)
Theorem returned_run_tables w wb w' :
  fs w !! EXCEL_FILE = Some (RegularFile (Xlsx wb)) →
  main env w = (Returned tt, w') →
  (∀ t, tables w' !! t = held_after wb (tables w) t) ∧
  (∀ s df, (s, df) ∈ wb → is_Some (tables w' !! table_name s)) ∧
  dom (tables w') = dom (tables w) ∪ list_to_set (table_names wb) ∧
  (NoDup (table_names wb) →
   dom (tables w) ⊆ list_to_set (table_names wb) →
   size (tables w') = length wb).
Proof.
  intros E Hrun. destruct (main_returned_tables env w wb w' E Hrun) as [-> _].
  split; [|split; [|split]].
  - intros t. apply written_lookup.
  - intros s df Hin. rewrite written_lookup. unfold held_after.
    assert (Hsome : is_Some (last_frame wb (table_name s))).
    { apply last_frame_is_Some. unfold table_names.
      apply list_elem_of_fmap. by exists (s, df). }
    destruct Hsome as [d ->]. eauto.
  - apply written_dom.
  - intros Hnodup Hsub.
    rewrite <- size_dom, written_dom.
    replace (dom (tables w) ∪ list_to_set (table_names wb))
      with (list_to_set (table_names wb) : gset str) by set_solver.
    rewrite size_list_to_set by done. unfold table_names. by rewrite length_fmap.
Qed.

(** C8, as the code has it.  When two sheets derive the same table name, a
    run that returns holds under that name only the frame of the last sheet
    deriving it, and the database has fewer tables than it had before plus
    the number of sheets; fewer than the number of sheets when no table of
    another name was there before. *)
Theorem colliding_sheets_last_wins w wb w' i j si dfi sj dfj :
  fs w !! EXCEL_FILE = Some (RegularFile (Xlsx wb)) →
  main env w = (Returned tt, w') →
  i < j → wb !! i = Some (si, dfi) → wb !! j = Some (sj, dfj) →
  table_name si = table_name sj →
  (∀ k sk dfk, j < k → wb !! k = Some (sk, dfk) → table_name sk ≠ table_name sj) →
  tables w' !! table_name sj = Some (table_of_frame dfj) ∧
  size (tables w') < size (tables w) + length wb ∧
  (dom (tables w) ⊆ list_to_set (table_names wb) → size (tables w') < length wb).
Proof.
  intros E Hrun Hij Hi Hj Hname Hlast.
  destruct (main_returned_tables env w wb w' E Hrun) as [-> _].
  assert (Hrep : size (list_to_set (table_names wb) : gset str) < length wb).
  { rewrite <- (length_fmap (λ item, table_name item.1) wb).
    apply (size_list_to_set_repeated _ i j (table_name sj)); [done| |].
    - unfold table_names. by rewrite list_lookup_fmap, Hi, <- Hname.
    - unfold table_names. by rewrite list_lookup_fmap, Hj. }
  split; [|split].
  - rewrite written_lookup. unfold held_after.
    rewrite <- (take_drop_middle wb j (sj, dfj) Hj), last_frame_last; [done|].
    unfold table_names. intros Hin. apply list_elem_of_fmap in Hin.
    destruct Hin as ([sk dfk] & Hk & Hin). apply list_elem_of_lookup in Hin.
    destruct Hin as [k Hin]. rewrite lookup_drop in Hin.
    apply (Hlast (S j + k) sk dfk); [lia|done|done].
  - rewrite <- !size_dom, written_dom.
    pose proof (size_union_le (dom (tables w)) (list_to_set (table_names wb))). lia.
  - intros Hsub. rewrite <- size_dom, written_dom.
    replace (dom (tables w) ∪ list_to_set (table_names wb))
      with (list_to_set (table_names wb) : gset str) by set_solver.
    done.
Qed.

End Returned_runs.

(** * Runs in which a write raises, and repeated runs *)

Section Failing_writes.

Context (env : Env).
Implicit Types (w : World) (wb pre post : Workbook) (df : DataFrame) (s t : str)
  (db : gmap str Table).

Lemma left_behind_lookup_ne f name df db t :
  t ≠ name → left_behind f name df db !! t = db !! t.
Proof.
  intros Hne. destruct f; cbn [left_behind].
  - done.
  - by rewrite lookup_delete_ne.
  - by rewrite lookup_insert_ne.
Qed.

Lemma left_behind_lookup_eq f name df db :
  left_behind f name df db !! name
  = match f with
    | AtStart => db !! name
    | AtCreate => None
    | AtInsert => Some {| columns := df_columns df; rows := [] |}
    end.
Proof.
  destruct f; cbn [left_behind].
  - done.
  - by rewrite lookup_delete_eq.
  - by rewrite lookup_insert_eq.
Qed.

Lemma not_ready_not_database w c :
  fs w !! SQLITE_DB = Some (RegularFile c) → (∀ db, c ≠ Sqlite db) →
  ¬ database_ready w.
Proof.
  intros Hdb Hno [Hnone|[db Hsome]]; [congruence|].
  rewrite Hdb in Hsome. injection Hsome as ->. by destruct (Hno db).
Qed.

(** C3, as the code has it.  When the write of sheet k raises after the
    writes of the sheets before it returned, [main] raises that error with
    the connection closed again; every table name other than sheet k's holds
    the frame of the last of the sheets before k deriving it, and without
    such a sheet what it held before the run (a table named after a later
    sheet is there only if it was there before); under sheet k's own name
    the database holds what it held before that write, or nothing, or an
    empty table with the sheet's columns; the sheets after k are not
    processed. *)
Theorem write_failure_outcome w pre s df post :
  fs w !! EXCEL_FILE = Some (RegularFile (Xlsx (pre ++ (s, df) :: post))) →
  connects env w →
  Forall (λ item, ¬ write_raises env w item.1) pre →
  write_raises env w s →
  (main env w).1 = Raised SqliteError ∧
  open_connections (main env w).2 = open_connections w ∧
  (∀ t, t ≠ table_name s →
        tables (main env w).2 !! t = held_after pre (tables w) t) ∧
  (tables (main env w).2 !! table_name s = held_after pre (tables w) (table_name s) ∨
   tables (main env w).2 !! table_name s = None ∨
   tables (main env w).2 !! table_name s
   = Some {| columns := df_columns df; rows := [] |}) ∧
  stdout (main env w).2
  = stdout w ++ [reading_line] ++ (saving_line <$> pre ++ [(s, df)]).
Proof.
  intros E [Hcon Hnodir] Hpre Hs.
  assert (Hcases : database_ready w ∨
            ∃ c, fs w !! SQLITE_DB = Some (RegularFile c) ∧ ∀ db, c ≠ Sqlite db).
  { destruct (fs w !! SQLITE_DB) as [[|[wb|db|]]|] eqn:Hdb.
    - done.
    - right. eexists. split; [done|]. discriminate.
    - left. right. eauto.
    - right. eexists. split; [done|]. discriminate.
    - left. by left. }
  destruct Hcases as [Hready|(c & Hdb & Hno)].
  - assert (Hall : all_written env pre).
    { eapply Forall_impl; [exact Hpre|]. intros item Hitem. cbn beta in Hitem.
      destruct (to_sql_fault env item.1) eqn:Hf; [|done].
      destruct Hitem. left. by rewrite Hf. }
    assert (Hf : ∃ f, to_sql_fault env s = Some f).
    { destruct Hs as [Hs|Hs]; [|done].
      destruct (to_sql_fault env s); [eauto|done]. }
    destruct Hf as [f Hf].
    rewrite (main_fault env w pre s df post f E Hcon Hready Hall Hf).
    cbn [fst snd]. rewrite tables_with_tables.
    split; [done|]. split; [done|]. split; [|split; [|done]].
    + intros t Hne. by rewrite left_behind_lookup_ne, written_lookup.
    + rewrite left_behind_lookup_eq, written_lookup. destruct f; eauto.
  - pose proof (not_ready_not_database w c Hdb Hno) as Hnot.
    assert (pre = []) as ->.
    { destruct Hpre as [|item pre Hitem _]; [done|]. destruct Hitem. by right. }
    cbn [app] in E.
    rewrite (main_not_database env w _ c E Hcon Hdb Hno).
    cbn [fst snd]. rewrite tables_with_files.
    split; [done|]. split; [done|]. split; [|split; [|done]].
    + done.
    + by left.
Qed.

Lemma written_idem wb db : written wb (written wb db) = written wb db.
Proof.
  apply map_eq. intros t. rewrite !written_lookup. unfold held_after.
  destruct (last_frame wb t) eqn:Ht; [done|].
  by rewrite written_lookup; unfold held_after; rewrite Ht.
Qed.

Lemma left_behind_idem f name df pre db :
  left_behind f name df (written pre (left_behind f name df (written pre db)))
  = left_behind f name df (written pre db).
Proof.
  assert (Hin : ∀ t, (t = name → f = AtStart) →
     written pre (left_behind f name df (written pre db)) !! t
     = written pre db !! t).
  { intros t Ht. rewrite !written_lookup. unfold held_after.
    destruct (last_frame pre t) eqn:Hl; [done|].
    destruct (decide (t = name)) as [->|Hne].
    - rewrite (Ht eq_refl). cbn [left_behind].
      by rewrite written_lookup; unfold held_after; rewrite Hl.
    - rewrite left_behind_lookup_ne by done.
      by rewrite written_lookup; unfold held_after; rewrite Hl. }
  apply map_eq. intros t. destruct (decide (t = name)) as [->|Hne].
  - rewrite !left_behind_lookup_eq. destruct f; [|done..]. by apply Hin.
  - rewrite !left_behind_lookup_ne by done. apply Hin. by intros ->.
Qed.

(** C5.  A second run leaves the files, the database among them, exactly as
    the first run left them, and ends as the first did: every table is
    replaced, none extended or duplicated. *)
Theorem second_run_same_database w :
  fs (main env (main env w).2).2 = fs (main env w).2 ∧
  (main env (main env w).2).1 = (main env w).1.
Proof.
  destruct (fs w !! EXCEL_FILE) as [[|c]|] eqn:E.
  1, 3: (rewrite (main_not_file env w) by (by rewrite E); cbn [snd];
         by rewrite (main_not_file env w) by (by rewrite E)).
  assert (Hc : (∃ wb, c = Xlsx wb) ∨ ∀ wb, c ≠ Xlsx wb) by (destruct c; eauto).
  destruct Hc as [[wb ->]|Hc].
  2: { rewrite (main_unreadable env w c E Hc). cbn [snd].
       by rewrite (main_unreadable env) with (c := c)
         by first [exact E | exact Hc]. }
  destruct (connect_raises env) eqn:Hcon.
  { rewrite (main_connect_raises env w wb E) by (by left). cbn [snd].
    by rewrite (main_connect_raises env) with (wb := wb)
      by first [exact E | by left]. }
  assert (Hcases : fs w !! SQLITE_DB = Some Directory ∨ database_ready w ∨
            ∃ c, fs w !! SQLITE_DB = Some (RegularFile c) ∧ ∀ db, c ≠ Sqlite db).
  { destruct (fs w !! SQLITE_DB) as [[|[wb'|db|]]|] eqn:Hdb.
    - by left.
    - right. right. eexists. split; [done|]. discriminate.
    - right. left. right. eauto.
    - right. right. eexists. split; [done|]. discriminate.
    - right. left. by left. }
  destruct Hcases as [Hdir|[Hready|(c & Hdb & Hno)]].
  - rewrite (main_connect_raises env w wb E) by (by right). cbn [snd].
    by rewrite (main_connect_raises env) with (wb := wb)
      by first [exact E | by right].
  - assert (Hnext : ∀ db out,
        fs (with_tables w db out) !! EXCEL_FILE = Some (RegularFile (Xlsx wb)) ∧
        database_ready (with_tables w db out)).
    { intros db out. split.
      - cbn [with_tables with_files fs].
        rewrite lookup_insert_ne; [done|]. apply not_eq_sym, paths_differ.
      - right. eexists. apply with_tables_lookup. }
    destruct (first_fault env wb) as [Hall|(pre & s & df & post & f & -> & Hpre & Hf)].
    + rewrite (main_all_written env w wb E Hcon Hready Hall). cbn [snd].
      destruct (Hnext (written wb (tables w))
        (stdout w ++ [reading_line] ++ (saving_line <$> wb) ++ closing_lines w))
        as [E1 Hready1].
      rewrite (main_all_written env _ wb E1 Hcon Hready1 Hall). cbn [snd].
      rewrite tables_with_tables, written_idem.
      cbn [with_tables with_files fs fst]. by rewrite insert_insert_eq.
    + rewrite (main_fault env w pre s df post f E Hcon Hready Hpre Hf). cbn [snd].
      destruct (Hnext (left_behind f (table_name s) df (written pre (tables w)))
        (stdout w ++ [reading_line] ++ (saving_line <$> pre ++ [(s, df)])))
        as [E1 Hready1].
      rewrite (main_fault env _ pre s df post f E1 Hcon Hready1 Hpre Hf). cbn [snd].
      rewrite tables_with_tables, left_behind_idem.
      cbn [with_tables with_files fs fst]. by rewrite insert_insert_eq.
  - rewrite (main_not_database env w wb c E Hcon Hdb Hno).
    destruct wb as [|item wb]; cbn [snd].
    + by rewrite (main_not_database env) with (wb := []) (c := c)
        by first [exact E | exact Hcon | exact Hdb | exact Hno].
    + by rewrite (main_not_database env) with (wb := item :: wb) (c := c)
        by first [exact E | exact Hcon | exact Hdb | exact Hno].
Qed.

End Failing_writes.

(** * The statements at sample inputs *)

Lemma run_returned env w :
  (main env w).1 = Returned tt → main env w = (Returned tt, (main env w).2).
Proof. destruct (main env w) as [r w']. cbn. by intros ->. Qed.

Lemma written_sheet_is_frame_witness :
  ∃ tbl,
    tables (main Examples.no_faults (Examples.fresh Examples.two_sheets)).2
      !! lit "Sales_Data" = Some tbl ∧
    columns tbl = df_columns Examples.sales ∧
    rows tbl = df_rows Examples.sales ∧
    length (rows tbl) = length (df_rows Examples.sales).
Proof.
  apply (proj2 (written_sheet_is_frame Examples.no_faults)
           (Examples.fresh Examples.two_sheets) _
           [] (lit "Sales Data") Examples.sales [(lit "Inventory", Examples.stock)]).
  - reflexivity.
  - apply run_returned. vm_compute. reflexivity.
  - intros Hin. apply list_elem_of_singleton in Hin. vm_compute in Hin. discriminate.
Defined.

(** C1 as stated fails: two sheets, a run that returns, one table. *)
Lemma one_table_per_sheet_counterexample :
  (main Examples.no_faults (Examples.fresh Examples.colliding)).1 = Returned tt ∧
  length Examples.colliding = 2 ∧
  size (tables (main Examples.no_faults (Examples.fresh Examples.colliding)).2) = 1.
Proof. vm_compute. done. Qed.

Lemma returned_run_tables_witness :
  size (tables (main Examples.no_faults (Examples.fresh Examples.two_sheets)).2)
  = length Examples.two_sheets.
Proof.
  destruct (returned_run_tables Examples.no_faults
              (Examples.fresh Examples.two_sheets) Examples.two_sheets _ eq_refl
              (run_returned Examples.no_faults
                 (Examples.fresh Examples.two_sheets) eq_refl))
    as (_ & _ & _ & Hsize).
  apply Hsize.
  - vm_compute. repeat constructor; intros Hin.
    + apply list_elem_of_singleton in Hin. discriminate.
    + by apply elem_of_nil in Hin.
  - intros t Hin. vm_compute in Hin. discriminate.
Defined.

(** C8 as stated fails: two colliding sheets over a database that has a
    table of another name, and as many tables as sheets. *)
Lemma fewer_tables_than_sheets_counterexample :
  (main Examples.no_faults Examples.colliding_beside_old).1 = Returned tt ∧
  length Examples.colliding = 2 ∧
  size (tables (main Examples.no_faults Examples.colliding_beside_old).2) = 2.
Proof. vm_compute. done. Qed.

Lemma colliding_sheets_last_wins_witness :
  tables (main Examples.no_faults (Examples.fresh Examples.colliding)).2
    !! lit "A_B" = Some (table_of_frame Examples.stock) ∧
  size (tables (main Examples.no_faults (Examples.fresh Examples.colliding)).2)
  < size (tables (Examples.fresh Examples.colliding)) + length Examples.colliding.
Proof.
  destruct (colliding_sheets_last_wins Examples.no_faults
              (Examples.fresh Examples.colliding) Examples.colliding _
              0 1 (lit "A B") Examples.sales (lit "A_B") Examples.stock
              eq_refl
              (run_returned Examples.no_faults
                 (Examples.fresh Examples.colliding) eq_refl))
    as (Hlast & Hsize & _).
  - lia.
  - reflexivity.
  - reflexivity.
  - reflexivity.
  - intros [|[|k]] sk dfk Hk; [lia|lia|]. cbn. discriminate.
  - split; [exact Hlast|exact Hsize].
Defined.

(** C3 as stated fails: the write of the first sheet raises, and the table
    of the second sheet, there since an earlier run, is still there. *)
Lemma failed_write_later_table_counterexample :
  (main (Examples.fault_on (lit "Sales Data") AtStart)
        Examples.two_sheets_over_old).1 = Raised SqliteError ∧
  tables (main (Examples.fault_on (lit "Sales Data") AtStart)
               Examples.two_sheets_over_old).2 !! table_name (lit "Inventory")
  = Some Examples.old_table.
Proof. vm_compute. done. Qed.

Lemma write_failure_outcome_witness :
  (main (Examples.fault_on (lit "Inventory") AtInsert)
        (Examples.fresh Examples.three_sheets)).1 = Raised SqliteError ∧
  open_connections (main (Examples.fault_on (lit "Inventory") AtInsert)
                          (Examples.fresh Examples.three_sheets)).2 = 0.
Proof.
  destruct (write_failure_outcome (Examples.fault_on (lit "Inventory") AtInsert)
              (Examples.fresh Examples.three_sheets)
              [(lit "Sales Data", Examples.sales)] (lit "Inventory") Examples.stock
              [(lit "Notes", Examples.sales)] eq_refl) as (Hr & Hopen & _).
  - split; [reflexivity|]. vm_compute. discriminate.
  - constructor; [|constructor]. intros [Hf|Hnot].
    + by apply Hf.
    + apply Hnot. by left.
  - left. vm_compute. discriminate.
  - split; [exact Hr|exact Hopen].
Defined.

(** * Every exit of [main] *)

Section Exits.

Context (env : Env).
Implicit Types (w : World) (wb pre post : Workbook) (df : DataFrame) (s t : str)
  (db : gmap str Table).

Lemma with_files_same w : with_files w (fs w) (stdout w ++ []) = w.
Proof. unfold with_files. rewrite app_nil_r. by destruct w. Qed.

(** [main] leaves by one of the exits of [exit_of]. *)
Lemma main_exit w :
  ∃ r f out, exit_of env w r f out ∧
             main env w = (r, with_files w f (stdout w ++ out)).
Proof.
  destruct (fs w !! EXCEL_FILE) as [[|c]|] eqn:E.
  1, 3: (eexists _, _, _; split;
         [apply exit_not_file; intros c'; by rewrite E
         |rewrite with_files_same; apply main_not_file; intros c'; by rewrite E]).
  assert (Hc : (∃ wb, c = Xlsx wb) ∨ ∀ wb, c ≠ Xlsx wb) by (destruct c; eauto).
  destruct Hc as [[wb ->]|Hc].
  2: { eexists _, _, _. split; [by eapply exit_unreadable|].
       by apply main_unreadable with (c := c). }
  destruct (connect_raises env) eqn:Hcon.
  { eexists _, _, _. split; [eapply exit_no_connection; [done|by left]|].
    apply main_connect_raises with (wb := wb); [done|by left]. }
  assert (Hcases : fs w !! SQLITE_DB = Some Directory ∨ database_ready w ∨
            ∃ c, fs w !! SQLITE_DB = Some (RegularFile c) ∧ ∀ db, c ≠ Sqlite db).
  { destruct (fs w !! SQLITE_DB) as [[|[wb'|db|]]|] eqn:Hdb.
    - by left.
    - right. right. eexists. split; [done|]. discriminate.
    - right. left. right. eauto.
    - right. right. eexists. split; [done|]. discriminate.
    - right. left. by left. }
  destruct Hcases as [Hdir|[Hready|(c & Hdb & Hno)]].
  - eexists _, _, _. split; [eapply exit_no_connection; [done|by right]|].
    apply main_connect_raises with (wb := wb); [done|by right].
  - destruct (first_fault env wb) as [Hall|(pre & s & df & post & f & -> & Hpre & Hf)].
    + eexists _, _, _. split; [by apply exit_written|].
      by apply main_all_written.
    + eexists _, _, _. split; [by eapply exit_fault|].
      by apply (main_fault env w pre s df post f).
  - rewrite (main_not_database env w wb c E Hcon Hdb Hno).
    destruct wb as [|item wb].
    + eexists _, _, _. split; [by eapply exit_no_database_no_sheet|done].
    + eexists _, _, _. split; [by eapply exit_no_database|done].
Qed.

Lemma database_cases w :
  fs w !! SQLITE_DB = Some Directory ∨ database_ready w ∨
  ∃ c, fs w !! SQLITE_DB = Some (RegularFile c) ∧ ∀ db, c ≠ Sqlite db.
Proof.
  destruct (fs w !! SQLITE_DB) as [[|[wb'|db|]]|] eqn:Hdb.
  - by left.
  - right. right. eexists. split; [done|]. discriminate.
  - right. left. right. eauto.
  - right. right. eexists. split; [done|]. discriminate.
  - right. left. by left.
Qed.

Lemma ready_not_directory w : database_ready w → fs w !! SQLITE_DB ≠ Some Directory.
Proof. intros [Hn|[db Hdb]] Hd; congruence. Qed.

Lemma held_after_not_named wb db t :
  t ∉ table_names wb → held_after wb db t = db !! t.
Proof.
  intros Hnot. unfold held_after.
  destruct (last_frame wb t) eqn:Hl; [|done].
  destruct Hnot. apply last_frame_is_Some. eauto.
Qed.

Lemma table_names_app wb wb' :
  table_names (wb ++ wb') = table_names wb ++ table_names wb'.
Proof. unfold table_names. apply fmap_app. Qed.

(** The files an exit leaves, against the files before: only the database
    path can differ, it then holds a database, and the tables that no sheet
    names are as before. *)
Lemma exit_frame w r f out out' :
  exit_of env w r f out →
  (∀ p, p ≠ SQLITE_DB → f !! p = fs w !! p) ∧
  (f !! SQLITE_DB = Some Directory ↔ fs w !! SQLITE_DB = Some Directory) ∧
  (database_ready (with_files w f out') ↔ database_ready w) ∧
  (∀ wb t, fs w !! EXCEL_FILE = Some (RegularFile (Xlsx wb)) →
           t ∉ table_names wb →
           tables (with_files w f out') !! t = tables w !! t).
Proof.
  assert (Hins : ∀ wb0 db',
    fs w !! EXCEL_FILE = Some (RegularFile (Xlsx wb0)) →
    database_ready w →
    (∀ t, t ∉ table_names wb0 → db' !! t = tables w !! t) →
    let f' := <[SQLITE_DB := RegularFile (Sqlite db')]> (fs w) in
    (∀ p, p ≠ SQLITE_DB → f' !! p = fs w !! p) ∧
    (f' !! SQLITE_DB = Some Directory ↔ fs w !! SQLITE_DB = Some Directory) ∧
    (database_ready (with_files w f' out') ↔ database_ready w) ∧
    (∀ wb t, fs w !! EXCEL_FILE = Some (RegularFile (Xlsx wb)) →
             t ∉ table_names wb →
             tables (with_files w f' out') !! t = tables w !! t)).
  { intros wb0 db' E Hready Hdb' f'. split; [|split; [|split]].
    - intros p Hp. unfold f'. by rewrite lookup_insert_ne.
    - unfold f'. rewrite lookup_insert_eq. split; [done|].
      intros Hd. by destruct (ready_not_directory w Hready).
    - split; [done|]. intros _. right. exists db'.
      unfold f'. cbn [fs with_files]. apply lookup_insert_eq.
    - intros wb t E' Ht. rewrite E in E'. injection E' as <-.
      unfold f'. change (with_files w _ out') with (with_tables w db' out').
      rewrite tables_with_tables. by apply Hdb'. }
  destruct 1 as [Hno|c E Hc|wb E Hcon|c E Hcon Hdb Hno|item wb c E Hcon Hdb Hno
                |wb E Hcon Hready Hall|pre s df post f0 E Hcon Hready Hall Hf];
    try (split; [done|split; [done|split; [done|done]]]).
  - apply (Hins wb); [done..|]. intros t Ht.
    by rewrite written_lookup, held_after_not_named.
  - apply (Hins (pre ++ (s, df) :: post)); [done..|]. intros t Ht.
    rewrite table_names_app in Ht. cbn in Ht.
    apply not_elem_of_app in Ht as [Hpre Ht].
    apply not_elem_of_cons in Ht as [Hs _].
    by rewrite left_behind_lookup_ne, written_lookup, held_after_not_named.
Qed.

Lemma written_agree wb db db' :
  (∀ t, t ∉ table_names wb → db !! t = db' !! t) →
  written wb db = written wb db'.
Proof.
  intros Hagree. apply map_eq. intros t. rewrite !written_lookup.
  unfold held_after. destruct (last_frame wb t) eqn:Hl; [done|].
  apply Hagree. intros Hin. apply last_frame_is_Some in Hin.
  rewrite Hl in Hin. by destruct Hin.
Qed.

(** When [main] returns. *)
Lemma main_returns_when w :
  (main env w).1 = Returned tt ↔
  ∃ wb, fs w !! EXCEL_FILE = Some (RegularFile (Xlsx wb)) ∧
        connects env w ∧
        Forall (λ item, ¬ write_raises env w item.1) wb.
Proof.
  split.
  - destruct (main_exit w) as (r & f & out & Hexit & ->). cbn [fst].
    intros ->.
    inversion Hexit as [|?|?|c E Hcon Hdb Hno|?|wb E Hcon Hready Hall|?]; subst.
    + exists []. split; [done|]. split; [|constructor].
      split; [done|]. by rewrite Hdb.
    + exists wb. split; [done|]. split.
      * split; [done|]. by apply ready_not_directory.
      * eapply Forall_impl; [exact Hall|]. intros item Hitem [Hf|Hnot]; by auto.
  - intros (wb & E & [Hcon Hnodir] & Hwb).
    destruct (database_cases w) as [Hdir|[Hready|(c & Hdb & Hno)]]; [done| |].
    + rewrite (main_all_written env w wb E Hcon Hready); [done|].
      eapply Forall_impl; [exact Hwb|]. intros item Hitem. cbn beta in Hitem.
      destruct (to_sql_fault env item.1) eqn:Hf; [|done].
      destruct Hitem. left. by rewrite Hf.
    + rewrite (main_not_database env w wb c E Hcon Hdb Hno).
      destruct Hwb as [|item wb Hitem _]; [done|].
      destruct Hitem. right. by apply (not_ready_not_database w c).
Qed.

(** X5.  On every exit of [main] the working directory is as before, as
    many connections are open as before (the one it opened is closed again),
    and the output is what was there with lines added at its end. *)
Theorem main_keeps_process_state w :
  cwd (main env w).2 = cwd w ∧
  open_connections (main env w).2 = open_connections w ∧
  stdout w `prefix_of` stdout (main env w).2.
Proof.
  destruct (main_exit w) as (r & f & out & _ & ->). cbn [snd with_files cwd
    open_connections stdout].
  split; [done|]. split; [done|]. by exists out.
Qed.

(** X6.  [main] writes to no path but the database path: on every exit any
    other path, the workbook's among them, holds what it held. *)
Theorem main_writes_only_database w p :
  p ≠ SQLITE_DB → fs (main env w).2 !! p = fs w !! p.
Proof.
  intros Hp. destruct (main_exit w) as (r & f & out & Hexit & ->).
  cbn [snd with_files fs]. by apply (exit_frame w r f out out Hexit).
Qed.

(** X7.  On every exit of [main] a table whose name no sheet of the
    workbook derives is as it was before the run: tables are never removed
    or changed because their sheet is gone. *)
Theorem unrelated_tables_untouched w t :
  (∀ wb, fs w !! EXCEL_FILE = Some (RegularFile (Xlsx wb)) → t ∉ table_names wb) →
  tables (main env w).2 !! t = tables w !! t.
Proof.
  intros Ht. destruct (main_exit w) as (r & f & out & Hexit & ->). cbn [snd].
  destruct (exit_frame w r f out (stdout w ++ out) Hexit) as (_ & _ & _ & Htables).
  inversion Hexit; subst; try done; by eapply Htables; eauto.
Qed.

Lemma not_found_error_cases w :
  not_found_error w = FileNotFoundError (Msg.not_found ++ realpath w EXCEL_FILE) ∨
  not_found_error w = RuntimeError.
Proof.
  unfold not_found_error.
  destruct (resolve_cases EXCEL_FILE w) as [->|[-> _]]; auto.
Qed.

Lemma readable_outcomes w wb :
  fs w !! EXCEL_FILE = Some (RegularFile (Xlsx wb)) →
  (main env w).1 = Returned tt ∨ (main env w).1 = Raised SqliteError.
Proof.
  intros E. destruct (main_exit w) as (r & f & out & Hexit & ->). cbn [fst].
  destruct Hexit as [Hno|c E' Hc|?|?|?|?|?]; auto.
  - by destruct (Hno (Xlsx wb)).
  - rewrite E in E'. injection E' as <-. by destruct (Hc wb).
Qed.

(** X8.  The error [main] raises tells how far the run got: the error of
    line 15 (the [FileNotFoundError] with the resolved path, or the error
    of [resolve]) exactly when the workbook path is not a regular file; the
    reader's error exactly when it is a regular file that cannot be read;
    an error of the database layer exactly when the workbook was read and
    the connection or the write of some sheet raised. *)
Theorem main_error_tells_stage w :
  ((main env w).1
   = Raised (FileNotFoundError (Msg.not_found ++ realpath w EXCEL_FILE)) ∨
   (main env w).1 = Raised RuntimeError ↔
   ∀ c, fs w !! EXCEL_FILE ≠ Some (RegularFile c)) ∧
  ((main env w).1 = Raised ReadExcelError ↔
   ∃ c, fs w !! EXCEL_FILE = Some (RegularFile c) ∧ ∀ wb, c ≠ Xlsx wb) ∧
  ((main env w).1 = Raised SqliteError ↔
   ∃ wb, fs w !! EXCEL_FILE = Some (RegularFile (Xlsx wb)) ∧
         ¬ (connects env w ∧ Forall (λ item, ¬ write_raises env w item.1) wb)).
Proof.
  assert (Hstage : (∀ c, fs w !! EXCEL_FILE ≠ Some (RegularFile c)) ∨
            (∃ c, fs w !! EXCEL_FILE = Some (RegularFile c) ∧ ∀ wb, c ≠ Xlsx wb) ∨
            (∃ wb, fs w !! EXCEL_FILE = Some (RegularFile (Xlsx wb)))).
  { destruct (fs w !! EXCEL_FILE) as [[|[wb|db|]]|].
    - by left.
    - right. right. eauto.
    - right. left. eexists. split; [done|]. discriminate.
    - right. left. eexists. split; [done|]. discriminate.
    - by left. }
  destruct Hstage as [Hno|[(c & E & Hc)|[wb E]]].
  - rewrite (main_not_file env w Hno). cbn [fst].
    pose proof (not_found_error_cases w) as Hnf.
    split; [|split].
    + split; [done|]. intros _. destruct Hnf as [->| ->]; auto.
    + split.
      * intros Hr. destruct Hnf as [Hnf|Hnf]; rewrite Hnf in Hr; discriminate.
      * intros (c & E & _). by destruct (Hno c).
    + split.
      * intros Hr. destruct Hnf as [Hnf|Hnf]; rewrite Hnf in Hr; discriminate.
      * intros (wb & E & _). by destruct (Hno (Xlsx wb)).
  - rewrite (main_unreadable env w c E Hc). cbn [fst].
    split; [|split].
    + split; [by intros [?|?]|]. intros Hno. by destruct (Hno c).
    + split; eauto.
    + split; [done|]. intros (wb & E' & _).
      rewrite E in E'. injection E' as ->. by destruct (Hc wb).
  - split; [|split].
    + split.
      * intros Hr. destruct (readable_outcomes w wb E) as [Ho|Ho];
          rewrite Ho in Hr; by destruct Hr.
      * intros Hno. by destruct (Hno (Xlsx wb)).
    + split.
      * intros Hr. destruct (readable_outcomes w wb E) as [Ho|Ho];
          rewrite Ho in Hr; discriminate.
      * intros (c & E' & Hc). rewrite E in E'. injection E' as <-.
        by destruct (Hc wb).
    + split.
      * intros Hr. exists wb. split; [done|]. intros [Hcon Hwb].
        assert (Hret : (main env w).1 = Returned tt)
          by (apply main_returns_when; eauto).
        rewrite Hret in Hr. discriminate.
      * intros (wb' & E' & Hnot).
        destruct (readable_outcomes w wb E) as [Ho|Ho]; [|done].
        apply main_returns_when in Ho as (wb2 & E2 & Hcon & Hwb).
        rewrite E' in E2. injection E2 as <-. by destruct Hnot.
Qed.

(** X9.  [main] returns exactly when the workbook can be read, the
    connection can be opened and the write of no sheet raises. *)
Theorem main_returns_iff w :
  (main env w).1 = Returned tt ↔
  ∃ wb, fs w !! EXCEL_FILE = Some (RegularFile (Xlsx wb)) ∧
        connects env w ∧
        Forall (λ item, ¬ write_raises env w item.1) wb.
Proof. apply main_returns_when. Qed.

(** X10.  A run that returns has printed the reading line, then one
    progress line per sheet in workbook order, then the two closing lines,
    the last with the resolved path of the database ([realpath]: the target
    of a symbolic link, the name under the working directory otherwise),
    and nothing else. *)
Theorem returned_run_output w wb w' :
  fs w !! EXCEL_FILE = Some (RegularFile (Xlsx wb)) →
  main env w = (Returned tt, w') →
  stdout w'
  = stdout w ++ [reading_line] ++ (saving_line <$> wb) ++ closing_lines w.
Proof.
  intros E. destruct (main_exit w) as (r & f & out & Hexit & ->).
  intros [= -> <-]. cbn [stdout with_files]. f_equal.
  inversion Hexit as [|?|?|c E' Hcon Hdb Hno|?|wb' E' Hcon Hready Hall|?]; subst;
    rewrite E in E'; injection E' as ?; by subst.
Qed.

(** X12.  When the connection cannot be opened, because [connect] raises
    or a directory sits at the database path, [main] raises the database
    error after the reading line alone: no sheet is attempted and no file
    is created or changed. *)
Theorem no_connection_no_change w wb :
  fs w !! EXCEL_FILE = Some (RegularFile (Xlsx wb)) →
  connect_raises env = true ∨ fs w !! SQLITE_DB = Some Directory →
  main env w
  = (Raised SqliteError, with_files w (fs w) (stdout w ++ [reading_line])).
Proof. apply main_connect_raises. Qed.

(** X4.  Line 17 comes before the workbook is read: whenever the workbook
    path is a regular file the reading line is the first line [main] prints,
    also when the file cannot be read or the database cannot be opened. *)
Theorem reading_line_first w c :
  fs w !! EXCEL_FILE = Some (RegularFile c) →
  stdout w ++ [reading_line] `prefix_of` stdout (main env w).2.
Proof.
  intros E. destruct (main_exit w) as (r & f & out & Hexit & ->).
  cbn [snd stdout with_files].
  destruct Hexit as [Hno|?|?|?|?|?|?];
    [by destruct (Hno c)|apply prefix_app, prefix_cons, prefix_nil..].
Qed.

End Exits.

Section Two_runs.

Implicit Types (w : World) (wb : Workbook) (t : str) (db : gmap str Table).

Lemma last_frame_distinct wb t df :
  NoDup (table_names wb) →
  last_frame wb t = Some df ↔ ∃ s, (s, df) ∈ wb ∧ table_name s = t.
Proof.
  induction wb as [|[s0 d0] wb IH]; cbn [last_frame].
  - intros _. split; [done|]. by intros (s & Hin%elem_of_nil & _).
  - unfold table_names. cbn [fmap list_fmap fst]. intros [Hnew Hrest]%NoDup_cons.
    fold (table_names wb) in Hnew, Hrest. specialize (IH Hrest).
    destruct (last_frame wb t) as [d|] eqn:Hl.
    + split.
      * intros Hd. apply IH in Hd as (s & Hin & Hs).
        exists s. split; [by right|done].
      * intros (s & Hin & Hs). apply elem_of_cons in Hin as [[= -> ->]|Hin].
        -- destruct Hnew. rewrite Hs. apply last_frame_is_Some. eauto.
        -- apply IH. eauto.
    + destruct (decide (table_name s0 = t)) as [Heq|Hne].
      * split.
        -- intros [= <-]. exists s0. split; [by left|done].
        -- intros (s & Hin & Hs). apply elem_of_cons in Hin as [[= -> ->]|Hin]; [done|].
           assert (Hsome : None = Some df) by (apply IH; eauto).
           discriminate.
      * split; [done|].
        intros (s & Hin & Hs). apply elem_of_cons in Hin as [[= -> ->]|Hin]; [done|].
        assert (Hsome : None = Some df) by (apply IH; eauto).
        discriminate.
Qed.

Lemma written_permutation wb wb' db :
  wb ≡ₚ wb' → NoDup (table_names wb) → written wb db = written wb' db.
Proof.
  intros Hperm Hnodup.
  assert (Hnodup' : NoDup (table_names wb')).
  { unfold table_names in *. by rewrite <- Hperm. }
  apply map_eq. intros t. rewrite !written_lookup. unfold held_after.
  replace (last_frame wb' t) with (last_frame wb t); [done|].
  apply option_eq. intros df. rewrite !last_frame_distinct by done.
  by setoid_rewrite Hperm.
Qed.

(** X11.  When the sheets derive pairwise distinct table names their order
    in the workbook does not matter: two runs that return, over the same
    tables and over workbooks with the same sheets in another order, leave
    the same tables. *)
Theorem sheet_order_irrelevant env w1 w2 wb1 wb2 w1' w2' :
  fs w1 !! EXCEL_FILE = Some (RegularFile (Xlsx wb1)) →
  fs w2 !! EXCEL_FILE = Some (RegularFile (Xlsx wb2)) →
  wb1 ≡ₚ wb2 →
  NoDup (table_names wb1) →
  tables w1 = tables w2 →
  main env w1 = (Returned tt, w1') →
  main env w2 = (Returned tt, w2') →
  tables w1' = tables w2'.
Proof.
  intros E1 E2 Hperm Hnodup Hsame Hrun1 Hrun2.
  destruct (main_returned_tables env w1 wb1 w1' E1 Hrun1) as [-> _].
  destruct (main_returned_tables env w2 wb2 w2' E2 Hrun2) as [-> _].
  rewrite Hsame. by apply written_permutation.
Qed.

(** X13.  A run that returns repairs whatever an earlier run left: after
    any first run, however it ended, a second run that returns would also
    have returned without the first, and it leaves exactly the tables it
    would have left without the first. *)
Theorem rerun_after_any_run env1 env2 w :
  (main env2 (main env1 w).2).1 = Returned tt →
  (main env2 w).1 = Returned tt ∧
  tables (main env2 (main env1 w).2).2 = tables (main env2 w).2.
Proof.
  destruct (main_exit env1 w) as (r & f & out & Hexit & ->). cbn [snd].
  destruct (exit_frame env1 w r f out (stdout w ++ out) Hexit)
    as (Hother & Hdir & Hready & Htables).
  set (w1 := with_files w f (stdout w ++ out)) in *.
  intros Hret.
  assert (Hret1 := Hret). apply main_returns_when in Hret1.
  destruct Hret1 as (wb & E1 & [Hcon Hnodir] & Hwb).
  assert (E : fs w !! EXCEL_FILE = Some (RegularFile (Xlsx wb))).
  { rewrite <- E1. symmetry. apply Hother, paths_differ. }
  assert (Hret0 : (main env2 w).1 = Returned tt).
  { apply main_returns_when. exists wb. split; [done|]. split.
    - split; [done|]. intros Hd. by apply Hnodir, Hdir.
    - eapply Forall_impl; [exact Hwb|]. intros item Hitem [Hf|Hnot].
      + apply Hitem. by left.
      + apply Hitem. right. intros Hr. by apply Hnot, Hready. }
  split; [done|].
  destruct (main_returned_tables env2 w1 wb _ E1 (run_returned env2 w1 Hret)) as [-> _].
  destruct (main_returned_tables env2 w wb _ E (run_returned env2 w Hret0)) as [-> _].
  apply written_agree. intros t Ht. by apply (Htables wb).
Qed.

End Two_runs.

(** * More on the table name *)

Section Table_names.

Implicit Types (s : str) (c : codepoint).

Lemma table_name_map s : table_name s = spaces_to_underscores (strip s).
Proof. unfold table_name, str_of, spaces_to_underscores. apply replace_one_char. Qed.

Lemma space_is_whitespace c : c = SPACE → isspace c = true.
Proof. by intros ->. Qed.

Lemma underscore_kept c :
  isspace c = false → (if N.eqb c SPACE then UNDERSCORE else c) = c.
Proof.
  intros Hc. destruct (N.eqb_spec c SPACE) as [Heq|]; [|done].
  by rewrite (space_is_whitespace c Heq) in Hc.
Qed.

Lemma spaces_to_underscores_head (l : str) c :
  (∀ c', head l = Some c' → isspace c' = false) →
  head (spaces_to_underscores l) = Some c → isspace c = false.
Proof.
  destruct l as [|c0 l]; [done|]. cbn. intros Hhd [= <-].
  rewrite underscore_kept; by apply Hhd.
Qed.

Lemma spaces_to_underscores_last (l : str) c :
  (∀ c', last l = Some c' → isspace c' = false) →
  last (spaces_to_underscores l) = Some c → isspace c = false.
Proof.
  unfold spaces_to_underscores.
  change (map ?f l) with (f <$> l). rewrite fmap_last.
  intros Hlast (c0 & Hc0 & ->)%fmap_Some.
  rewrite underscore_kept; by apply Hlast.
Qed.

Lemma spaces_to_underscores_no_space (l : str) :
  SPACE ∉ spaces_to_underscores l.
Proof.
  unfold spaces_to_underscores. change (map ?f l) with (f <$> l).
  intros (c & Hc & _)%list_elem_of_fmap.
  by destruct (N.eqb_spec c SPACE).
Qed.

Lemma spaces_to_underscores_id (l : str) :
  SPACE ∉ l → spaces_to_underscores l = l.
Proof.
  unfold spaces_to_underscores. induction l as [|c l IH]; [done|].
  intros [Hc Hl]%not_elem_of_cons. cbn [map]. rewrite IH by done.
  by destruct (N.eqb_spec c SPACE); [congruence|].
Qed.

Lemma table_name_ends s :
  (∀ c, head (table_name s) = Some c → isspace c = false) ∧
  (∀ c, last (table_name s) = Some c → isspace c = false).
Proof.
  rewrite table_name_map.
  destruct (strip_trimmed s) as (lead & trail & _ & _ & _ & Hhd & Hlast).
  split; intros c.
  - by apply spaces_to_underscores_head.
  - by apply spaces_to_underscores_last.
Qed.

(** X1.  A table name holds no space and neither starts nor ends with
    whitespace, whatever the sheet name. *)
Theorem table_name_clean s :
  (SPACE ∉ table_name s) ∧
  (∀ c, head (table_name s) = Some c → isspace c = false) ∧
  (∀ c, last (table_name s) = Some c → isspace c = false).
Proof.
  split; [|apply table_name_ends].
  rewrite table_name_map. apply spaces_to_underscores_no_space.
Qed.

(** X2.  Deriving is idempotent: the table name of a table name is that
    table name, so a sheet named like the table of another sheet shares its
    table. *)
Theorem table_name_idempotent s : table_name (table_name s) = table_name s.
Proof.
  destruct (table_name_ends s) as [Hhd Hlast].
  assert (Hstrip : strip (table_name s) = table_name s).
  { apply trimmed_unique. exists [], []. rewrite app_nil_r. by repeat split. }
  rewrite (table_name_map (table_name s)), Hstrip.
  apply spaces_to_underscores_id.
  rewrite table_name_map. apply spaces_to_underscores_no_space.
Qed.

(** X3.  The table name is empty exactly for a sheet name that is empty or
    all whitespace. *)
Theorem table_name_empty_iff_blank s :
  table_name s = [] ↔ Forall (λ c, isspace c = true) s.
Proof.
  rewrite table_name_map. split.
  - intros Hnil.
    assert (Hstrip : strip s = []).
    { unfold spaces_to_underscores in Hnil. by destruct (strip s). }
    destruct (strip_trimmed s) as (lead & trail & Hs & Hlead & Htrail & _).
    rewrite Hstrip in Hs. rewrite Hs. by apply Forall_app.
  - intros Hblank.
    assert (Hstrip : strip s = []).
    { apply trimmed_unique. exists s, []. by rewrite app_nil_r. }
    by rewrite Hstrip.
Qed.

End Table_names.

(** * Further statements at sample inputs *)

Lemma main_writes_only_database_witness :
  fs (main (Examples.fault_on (lit "Inventory") AtCreate)
           Examples.two_sheets_over_old).2 !! EXCEL_FILE
  = Some (RegularFile (Xlsx Examples.two_sheets)).
Proof.
  rewrite (main_writes_only_database (Examples.fault_on (lit "Inventory") AtCreate)
             Examples.two_sheets_over_old EXCEL_FILE); [reflexivity|].
  vm_compute. discriminate.
Defined.

Lemma unrelated_tables_untouched_witness :
  tables (main Examples.no_faults Examples.colliding_beside_old).2 !! lit "Z"
  = Some Examples.old_table.
Proof.
  rewrite (unrelated_tables_untouched Examples.no_faults
             Examples.colliding_beside_old (lit "Z")); [reflexivity|].
  intros wb E. vm_compute in E. injection E as <-.
  intros Hin. apply list_elem_of_In in Hin. vm_compute in Hin.
  destruct Hin as [H|[H|[]]]; discriminate.
Defined.

Lemma returned_run_output_witness :
  stdout (main Examples.no_faults (Examples.at_root Examples.two_sheets)).2
  = [reading_line;
     saving_line (lit "Sales Data", Examples.sales);
     saving_line (lit "Inventory", Examples.stock);
     Msg.converted;
     Msg.result_db ++ lit "/data.db"].
Proof.
  rewrite (returned_run_output Examples.no_faults
             (Examples.at_root Examples.two_sheets) Examples.two_sheets _ eq_refl
             (run_returned Examples.no_faults
                (Examples.at_root Examples.two_sheets) eq_refl)).
  reflexivity.
Defined.

Lemma sheet_order_irrelevant_witness :
  tables (main Examples.no_faults (Examples.fresh Examples.two_sheets)).2
  = tables (main Examples.no_faults
              (Examples.fresh (reverse Examples.two_sheets))).2.
Proof.
  apply (sheet_order_irrelevant Examples.no_faults
           (Examples.fresh Examples.two_sheets)
           (Examples.fresh (reverse Examples.two_sheets))
           Examples.two_sheets (reverse Examples.two_sheets)).
  - reflexivity.
  - reflexivity.
  - symmetry. apply reverse_Permutation.
  - vm_compute. repeat constructor; intros Hin.
    + apply list_elem_of_singleton in Hin. discriminate.
    + by apply elem_of_nil in Hin.
  - reflexivity.
  - apply run_returned. vm_compute. reflexivity.
  - apply run_returned. vm_compute. reflexivity.
Defined.

Lemma no_connection_no_change_witness :
  (main {| connect_raises := true; to_sql_fault := λ _, None |}
        (Examples.fresh Examples.two_sheets)).1 = Raised SqliteError ∧
  fs (main {| connect_raises := true; to_sql_fault := λ _, None |}
           (Examples.fresh Examples.two_sheets)).2
  = fs (Examples.fresh Examples.two_sheets).
Proof.
  rewrite (no_connection_no_change
             {| connect_raises := true; to_sql_fault := λ _, None |}
             (Examples.fresh Examples.two_sheets) Examples.two_sheets eq_refl);
    [by split|by left].
Defined.

Lemma rerun_after_any_run_witness :
  (main (Examples.fault_on (lit "Inventory") AtCreate)
        Examples.two_sheets_over_old).1 = Raised SqliteError ∧
  tables (main Examples.no_faults
            (main (Examples.fault_on (lit "Inventory") AtCreate)
                  Examples.two_sheets_over_old).2).2
  = tables (main Examples.no_faults Examples.two_sheets_over_old).2.
Proof.
  split; [vm_compute; reflexivity|].
  apply (rerun_after_any_run (Examples.fault_on (lit "Inventory") AtCreate)
           Examples.no_faults Examples.two_sheets_over_old).
  vm_compute. reflexivity.
Defined.

Lemma reading_line_first_witness :
  [reading_line]
  `prefix_of` stdout (main Examples.no_faults
                        (Examples.without_workbook (Some (RegularFile Bytes)))).2.
Proof.
  exact (reading_line_first Examples.no_faults
           (Examples.without_workbook (Some (RegularFile Bytes))) Bytes eq_refl).
Defined.
